(** * Stock tracker API: a shallow embedding of the request handlers

    The service keeps one table of price records ([models.py]), reads and
    appends to it through three data-access functions ([crud.py]) and serves
    five routes ([main.py]) whose JSON bodies are described by [schemas.py].

    Python values are embedded as follows.
    - [float] is IEEE 754 binary64: Rocq's primitive [float], whose operations
      are specified by [FloatAxioms] against [SpecFloat].
    - [int] is [Z]; a row count given to [LIMIT] is a [nat].
    - [str] is [string]; tickers are ASCII symbols and [str.upper] is the
      ASCII upper-casing map.
    - [datetime] is a number of microseconds, a [Z].
    - a raised exception is the [Raise] branch of [result].
    - the database session is the content of the [stocks] table, in rowid
      order; a handler returns its response together with the table it
      leaves behind. *)

From Stdlib Require Import ZArith List Bool String Ascii Lia.
From Stdlib Require Import Permutation Sorted.
From Stdlib Require Import Floats.
Import ListNotations.

Local Open Scope string_scope.
Local Open Scope list_scope.
Local Open Scope Z_scope.

(** ** Exceptions and results *)

Inductive exn : Type :=
| HTTPException (status_code : Z) (detail : string)
| RequestValidationError
| ZeroDivisionError
| IndexError
| ValueError.

Inductive result (A : Type) : Type :=
| Ok (a : A)
| Raise (e : exn).

Arguments Ok {A} a.
Arguments Raise {A} e.

Definition bind {A B : Type} (r : result A) (k : A -> result B) : result B :=
  match r with
  | Ok a => k a
  | Raise e => Raise e
  end.

Notation "x <- r ;; k" := (bind r (fun x => k))
  (at level 61, r at next level, right associativity).

(** ** Python built-ins used by the handlers *)

Module Py.

(** [int -> float], correctly rounded. *)
Definition float_of_int (z : Z) : float :=
  SF2Prim (binary_normalize prec emax z 0 false).

(** [x != y] and [x == y] on floats (IEEE comparison: [nan] differs from
    everything, [-0.0 == 0.0]). *)
Definition eq (x y : float) : bool := PrimFloat.eqb x y.
Definition ne (x y : float) : bool := negb (PrimFloat.eqb x y).

(** [x / y] on floats raises on a zero divisor. *)
Definition truediv (x y : float) : result float :=
  if PrimFloat.eqb y PrimFloat.zero then Raise ZeroDivisionError
  else Ok (PrimFloat.div x y).

(** [l[i]], with Python's negative indices. *)
Definition getitem {A : Type} (l : list A) (i : Z) : result A :=
  let len := Z.of_nat (List.length l) in
  let j := if i <? 0 then i + len else i in
  if (j <? 0) || (len <=? j) then Raise IndexError
  else match nth_error l (Z.to_nat j) with
       | Some a => Ok a
       | None => Raise IndexError
       end.

(** [min(l)]: the first item is kept until a strictly smaller one shows
    up; [max(l)] likewise with [>]. *)
Definition min_step (cur item : float) : float :=
  if PrimFloat.ltb item cur then item else cur.
Definition max_step (cur item : float) : float :=
  if PrimFloat.ltb cur item then item else cur.

Definition min (l : list float) : result float :=
  match l with
  | [] => Raise ValueError
  | x :: l' => Ok (fold_left min_step l' x)
  end.

Definition max (l : list float) : result float :=
  match l with
  | [] => Raise ValueError
  | x :: l' => Ok (fold_left max_step l' x)
  end.

(** [sum(l)]: accumulation from the integer [0], left to right.  Later
    CPython releases carry a compensation term through this loop; on the
    sums evaluated in the statements below (a single item, or items whose
    partial sums are exact but for the last) the result is the same. *)
Definition sum (l : list float) : float :=
  fold_left PrimFloat.add l (float_of_int 0).

(** The integer nearest to [a / b] for [b > 0], ties to even. *)
Definition round_half_even_div (a b : Z) : Z :=
  let q := a / b in
  match 2 * (a mod b) ?= b with
  | Lt => q
  | Gt => q + 1
  | Eq => if Z.even q then q else q + 1
  end.

(** [round(x, ndigits)] for [ndigits >= 0].  The exact value of [x] is
    rounded to [ndigits] decimals, ties to even, which gives the decimal
    [q / 10 ^ ndigits], and the result is the float nearest to it: the
    quotient of the integer [q] by the float [10 ^ ndigits].  The sign of a
    zero result is kept; a float whose exponent is not negative is an
    integer and rounds to itself, as do the infinities and [nan]. *)
Definition round (x : float) (ndigits : Z) : float :=
  match Prim2SF x with
  | S754_finite s m (Zneg k) =>
      match round_half_even_div (Zpos m * 10 ^ ndigits) (2 ^ Zpos k) with
      | Zpos q =>
          SF2Prim (SFdiv prec emax (S754_finite s q 0)
                         (Prim2SF (float_of_int (10 ^ ndigits))))
      | _ => SF2Prim (S754_zero s)
      end
  | _ => x
  end.

(** [str.upper] on ASCII text. *)
Definition upper_ascii (c : ascii) : ascii :=
  let n := nat_of_ascii c in
  if (97 <=? n)%nat && (n <=? 122)%nat then ascii_of_nat (n - 32) else c.

Fixpoint upper (s : string) : string :=
  match s with
  | EmptyString => EmptyString
  | String c s' => String (upper_ascii c) (upper s')
  end.

End Py.

(** [sub] occurs in [s]. *)
Definition contains (s sub : string) : Prop :=
  exists pre post, s = (pre ++ sub ++ post)%string.

(** ** models.py *)

Module Stock.
Record t : Type := mk {
  id : Z;
  ticker : string;
  price : float;
  timestamp : Z
}.
End Stock.

(** The session: the rows of [stocks], oldest rowid first. *)
Definition Session : Type := list Stock.t.

(** ** crud.py *)

Module crud.

(** The rowid given to a new row: one more than the largest in use. *)
Definition next_id (db : Session) : Z :=
  fold_right (fun r acc => Z.max (Stock.id r) acc) 0 db + 1.

(** [add_stock]: the ticker is upper-cased, the timestamp column takes its
    default, the clock reading [utcnow]; the row is appended and handed
    back. *)
Definition add_stock (db : Session) (ticker : string) (price : float)
    (utcnow : Z) : Stock.t * Session :=
  let new_stock := Stock.mk (next_id db) (Py.upper ticker) price utcnow in
  (new_stock, db ++ [new_stock]).

(** [filter(Stock.ticker == ticker.upper())] *)
Definition filter_ticker (ticker : string) (db : Session) : list Stock.t :=
  filter (fun r => String.eqb (Stock.ticker r) (Py.upper ticker)) db.

Definition get_stocks (db : Session) (ticker : string) : list Stock.t :=
  filter_ticker ticker db.

(** [order_by(Stock.timestamp.desc())]: rows of equal timestamp keep
    their rowid order. *)
Fixpoint insert_desc (r : Stock.t) (l : list Stock.t) : list Stock.t :=
  match l with
  | [] => [r]
  | x :: l' =>
      if Stock.timestamp x <=? Stock.timestamp r then r :: l
      else x :: insert_desc r l'
  end.

Definition order_by_timestamp_desc (l : list Stock.t) : list Stock.t :=
  fold_right insert_desc [] l.

(** [limit(n)]: at most [n] rows, from the front.  [n] is a row count:
    the two routes that reach this query pass a window size validated to
    lie between 2 and 1000. *)
Definition limit (n : nat) (l : list Stock.t) : list Stock.t := firstn n l.

Definition get_stocks_latest_n (db : Session) (ticker : string) (n : nat)
    : list Stock.t :=
  limit n (order_by_timestamp_desc (filter_ticker ticker db)).

End crud.

(** ** schemas.py *)

Module StockPrice.
Record t : Type := mk {
  ticker : string;
  price : float
}.
End StockPrice.

Module HistoryItem.
Record t : Type := mk {
  ticker : string;
  price : float;
  timestamp : Z
}.
End HistoryItem.

Module AnalysisResult.
Record t : Type := mk {
  ticker : string;
  count : Z;
  latest_price : option float;
  min_price : option float;
  max_price : option float;
  avg_price : option float;
  pct_change : option float
}.
End AnalysisResult.

(** ** main.py *)

(** [fastapi.Query(default, ge=, le=)]: the declaration of an integer query
    parameter, and what the framework makes of the value a request carries
    ([None]: the parameter is absent) before it calls the handler. *)
Module Query.
Record t : Type := mk {
  default : Z;
  ge : Z;
  le : Z
}.

Definition validate (q : t) (raw : option Z) : result Z :=
  match raw with
  | None => Ok (default q)
  | Some v =>
      if (ge q <=? v) && (v <=? le q) then Ok v
      else Raise RequestValidationError
  end.
End Query.

Module StreamingResponse.
Record t : Type := mk {
  content : string;
  media_type : string
}.
End StreamingResponse.

Module main.

(** A handler maps the session it is given to a response, or an
    exception, and the session it leaves. *)
Definition handler (A : Type) : Type := Session -> result A * Session.

(** [GET /stock/{ticker}].  [yf_history ticker] is the [Close] column of
    [yf.Ticker(ticker).history(period="1d")], one float per row, and
    [utcnow] the clock reading taken when the row is written. *)
Definition fetch_stock (yf_history : string -> list float) (utcnow : Z)
    (ticker : string) : handler StockPrice.t :=
  fun db =>
    let data := yf_history ticker in
    match data with
    | [] =>
        (Raise (HTTPException 404
                  ("No data found for ticker '" ++ Py.upper ticker ++ "'")),
         db)
    | _ :: _ =>
        match Py.getitem data (-1) with
        | Raise e => (Raise e, db)
        | Ok price =>
            let (_, db') := crud.add_stock db ticker price utcnow in
            (Ok (StockPrice.mk (Py.upper ticker) (Py.round price 2)), db')
        end
    end.

(** [GET /history/{ticker}] *)
Definition stock_history (ticker : string) : handler (list HistoryItem.t) :=
  fun db =>
    let records := crud.get_stocks db ticker in
    match records with
    | [] =>
        (Raise (HTTPException 404
                  ("No records found for ticker '" ++ Py.upper ticker ++ "'")),
         db)
    | _ :: _ =>
        (Ok (map (fun r => HistoryItem.mk (Stock.ticker r) (Stock.price r)
                                          (Stock.timestamp r)) records),
         db)
    end.

(** The [n] parameter of [/analysis] and of [/chart]. *)
Definition analyze_ticker_n : Query.t := Query.mk 20 2 1000.
Definition chart_ticker_n : Query.t := Query.mk 20 2 1000.

(** [GET /analysis/{ticker}]: the body of the handler, run on a validated
    [n]. *)
Definition analyze_ticker (ticker : string) (n : Z)
    : handler AnalysisResult.t :=
  fun db =>
    let rows := crud.get_stocks_latest_n db ticker (Z.to_nat n) in
    let rows := rev rows in
    match rows with
    | [] =>
        (Raise (HTTPException 404
                  ("No records found for ticker '" ++ Py.upper ticker ++ "'")),
         db)
    | _ :: _ =>
        let prices := map Stock.price rows in
        (latest <- Py.getitem prices (-1) ;;
         mn <- Py.min prices ;;
         mx <- Py.max prices ;;
         avg <- Py.truediv (Py.sum prices)
                  (Py.float_of_int (Z.of_nat (List.length prices))) ;;
         pct_change <-
           (p0 <- Py.getitem prices 0 ;;
            if Py.ne p0 (Py.float_of_int 0) then
              newest <- Py.getitem prices (-1) ;;
              oldest <- Py.getitem prices 0 ;;
              divisor <- Py.getitem prices 0 ;;
              quotient <- Py.truediv (PrimFloat.sub newest oldest) divisor ;;
              Ok (Some (PrimFloat.mul quotient (Py.float_of_int 100)))
            else Ok None) ;;
         Ok (AnalysisResult.mk
               (Py.upper ticker)
               (Z.of_nat (List.length prices))
               (Some (Py.round latest 2))
               (Some (Py.round mn 2))
               (Some (Py.round mx 2))
               (Some (Py.round avg 2))
               (match pct_change with
                | Some pc => Some (Py.round pc 2)
                | None => None
                end)),
         db)
    end.

(** [GET /chart/{ticker}].  [savefig title times prices] stands for the
    matplotlib calls: the PNG bytes of the plotted series. *)
Definition chart_ticker
    (savefig : string -> list Z -> list float -> string)
    (ticker : string) (n : Z) : handler StreamingResponse.t :=
  fun db =>
    let rows := crud.get_stocks_latest_n db ticker (Z.to_nat n) in
    let rows := rev rows in
    match rows with
    | [] =>
        (Raise (HTTPException 404
                  ("No records found for ticker '" ++ Py.upper ticker ++ "'")),
         db)
    | _ :: _ =>
        let times := map Stock.timestamp rows in
        let prices := map Stock.price rows in
        let buf :=
          savefig (Py.upper ticker ++ " - Recent Price Trend")%string times prices in
        (Ok (StreamingResponse.mk buf "image/png"), db)
    end.

(** A route with a declared query parameter: the framework validates the
    raw value first and calls the handler only with a valid one. *)
Definition with_query {A : Type} (q : Query.t) (h : Z -> handler A)
    (raw : option Z) : handler A :=
  fun db =>
    match Query.validate q raw with
    | Ok n => h n db
    | Raise e => (Raise e, db)
    end.

Definition GET_analysis (ticker : string) (n : option Z)
    : handler AnalysisResult.t :=
  with_query analyze_ticker_n (analyze_ticker ticker) n.

Definition GET_chart (savefig : string -> list Z -> list float -> string)
    (ticker : string) (n : option Z) : handler StreamingResponse.t :=
  with_query chart_ticker_n (chart_ticker savefig ticker) n.

End main.

(** * Vocabulary of the statements *)

(** [a] is listed before [b] by a newest-first query. *)
Definition newest_first (a b : Stock.t) : Prop :=
  Stock.timestamp b <= Stock.timestamp a.

(** The rows [/analysis] and [/chart] work on: the bounded query, reversed
    to oldest first. *)
Definition window (db : Session) (ticker : string) (n : Z) : list Stock.t :=
  rev (crud.get_stocks_latest_n db ticker (Z.to_nat n)).

(** [(newest - oldest) / oldest * 100], as the handler computes it. *)
Definition pct (oldest newest : float) : float :=
  PrimFloat.mul (PrimFloat.div (PrimFloat.sub newest oldest) oldest)
                (Py.float_of_int 100).

(** ** Sessions used as concrete inputs *)

(** The session after [/stock] recorded the given (price, time) quotes of
    one ticker, in this order. *)
Definition record_quotes (ticker : string) (quotes : list (float * Z))
    (db : Session) : Session :=
  fold_left (fun db q => snd (crud.add_stock db ticker (fst q) (snd q)))
            quotes db.

(** Four quotes of one ticker: 100, 110, 90, 120. *)
Definition four_quotes : Session :=
  record_quotes "aapl"
    [(100%float, 1); (110%float, 2); (90%float, 3); (120%float, 4)] [].


(** Three quotes at the same price, the float written [1.565]. *)
Definition flat_quotes : Session :=
  record_quotes "x"
    [(0x1.90a3d70a3d70ap+0%float, 1); (0x1.90a3d70a3d70ap+0%float, 2);
     (0x1.90a3d70a3d70ap+0%float, 3)] [].

(** A single quote, at 0.125. *)
Definition eighth_quote : Session :=
  record_quotes "x" [(0.125%float, 1)] [].

(** Two quotes, the older one at [nan]. *)
Definition nan_first : Session :=
  record_quotes "x" [(nan, 1); (1%float, 2)] [].

(** A single quote whose price is the float [inf]. *)
Definition infinite_quote : Session :=
  record_quotes "x" [(infinity, 1)] [].

(** ** Auxiliary definitions for the rounding proofs *)

(** The float 100.0. *)
Definition F100 : spec_float := S754_finite false 7036874417766400 (-46).

(** [round(x, 2)] on the specification side of a float. *)
Definition SFround2 (x : spec_float) : spec_float :=
  match x with
  | S754_finite s m (Zneg k) =>
      match Py.round_half_even_div (Z.pos m * 100) (2 ^ Z.pos k) with
      | Zpos q => SFdiv prec emax (S754_finite s q 0) F100
      | _ => S754_zero s
      end
  | _ => x
  end.

(** The sticky bit of a location. *)
Definition is_inexact (l : location) : bool :=
  match l with loc_Exact => false | _ => true end.

(** The mantissa and exponent of the float nearest to [q / 100], for an
    integer [q] below [2 ^ 59]: [q] is scaled to 60 bits and divided by
    100, or by 200 when the quotient by 100 would need 54 bits. *)
Definition hundredth (q : positive) : positive * Z :=
  let d := Z.pos (digits2_pos q) in
  let N := Z.pos q * 2 ^ (60 - d) in
  if Py.round_half_even_div N 100 <? 2 ^ 53
  then (Z.to_pos (Py.round_half_even_div N 100), d - 60)
  else (Z.to_pos (Py.round_half_even_div N 200), d - 59).

(** The magnitude of [round(x, 2)] for a float of mantissa [m] and exponent
    [e]; [None] stands for zero. *)
Definition round2_core (m : positive) (e : Z) : option (positive * Z) :=
  match e with
  | Zneg k =>
      match Py.round_half_even_div (Z.pos m * 100) (2 ^ Z.pos k) with
      | Zpos q => Some (hundredth q)
      | _ => None
      end
  | _ => Some (m, e)
  end.

(** The order of positive floats in canonical form: by exponent, then by
    mantissa. *)
Definition lexle (a b : positive * Z) : Prop :=
  snd a < snd b \/ (snd a = snd b /\ (fst a <= fst b)%positive).

Definition core_le (a b : option (positive * Z)) : Prop :=
  match a, b with
  | None, _ => True
  | Some _, None => False
  | Some a, Some b => lexle a b
  end.


(** ** Invariants and items of the further properties *)

(** Every stored ticker is its own upper-casing. *)
Definition normalised (db : Session) : Prop :=
  forall r, In r db -> Py.upper (Stock.ticker r) = Stock.ticker r.

(** No two rows share a rowid. *)
Definition unique_ids (db : Session) : Prop :=
  NoDup (map Stock.id db).

(** The item [/history] builds from a row. *)
Definition history_item (r : Stock.t) : HistoryItem.t :=
  HistoryItem.mk (Stock.ticker r) (Stock.price r) (Stock.timestamp r).

(** * Properties *)

(** ** The store queries *)

Lemma filter_ticker_In (ticker : string) (db : Session) (r : Stock.t) :
  In r (crud.filter_ticker ticker db) <->
  In r db /\ Stock.ticker r = Py.upper ticker.
Proof.
  unfold crud.filter_ticker. rewrite filter_In, String.eqb_eq. reflexivity.
Qed.

Lemma insert_desc_Permutation (r : Stock.t) (l : list Stock.t) :
  Permutation (crud.insert_desc r l) (r :: l).
Proof.
  induction l as [|x l IH]; simpl.
  - reflexivity.
  - destruct (Stock.timestamp x <=? Stock.timestamp r).
    + reflexivity.
    + rewrite IH. apply perm_swap.
Qed.

Lemma order_by_timestamp_desc_Permutation (l : list Stock.t) :
  Permutation (crud.order_by_timestamp_desc l) l.
Proof.
  induction l as [|x l IH]; simpl.
  - reflexivity.
  - rewrite insert_desc_Permutation. now constructor.
Qed.

Lemma insert_desc_sorted (r : Stock.t) (l : list Stock.t) :
  StronglySorted newest_first l ->
  StronglySorted newest_first (crud.insert_desc r l).
Proof.
  induction 1 as [|x l Hl IH Hx]; simpl.
  - repeat constructor.
  - destruct (Stock.timestamp x <=? Stock.timestamp r) eqn:E.
    + apply Z.leb_le in E. constructor.
      * now constructor.
      * constructor; [exact E|].
        eapply Forall_impl; [|exact Hx].
        unfold newest_first. intros; lia.
    + apply Z.leb_gt in E. constructor; [exact IH|].
      eapply Permutation_Forall.
      * symmetry. apply insert_desc_Permutation.
      * constructor; [unfold newest_first; lia | exact Hx].
Qed.

Lemma order_by_timestamp_desc_sorted (l : list Stock.t) :
  StronglySorted newest_first (crud.order_by_timestamp_desc l).
Proof.
  induction l as [|x l IH]; simpl.
  - constructor.
  - now apply insert_desc_sorted.
Qed.

(** A prefix of a sorted list is sorted and dominates what it leaves out. *)
Lemma firstn_sorted (n : nat) (l : list Stock.t) :
  StronglySorted newest_first l ->
  StronglySorted newest_first (firstn n l) /\
  forall r o, In r (firstn n l) -> In o (skipn n l) -> newest_first r o.
Proof.
  intros Hs. rewrite <- (firstn_skipn n l) in Hs at 1.
  revert Hs. generalize (firstn n l) (skipn n l). intros pre post.
  induction pre as [|x pre IH]; simpl; intros Hs.
  - split; [constructor | intros r o []].
  - inversion Hs as [|? ? Hs' Hx]; subst.
    destruct (IH Hs') as [IH1 IH2]. split.
    + constructor; [exact IH1|].
      apply Forall_app in Hx. tauto.
    + intros r o [<-|Hr] Ho.
      * apply Forall_app in Hx. destruct Hx as [_ Hx].
        rewrite Forall_forall in Hx. now apply Hx.
      * now apply IH2.
Qed.

(** C3: [get_stocks_latest_n db ticker n] holds at most [n] rows, exactly
    [min n k] of the [k] rows stored for the upper-cased ticker, listed by
    timestamp descending; every row it leaves out is stored for the ticker
    and is no newer than any row it returns; and when at most [n] rows are
    stored for the ticker it returns all of them and nothing else. *)
Theorem get_stocks_latest_n_spec (db : Session) (ticker : string) (n : nat) :
  let res := crud.get_stocks_latest_n db ticker n in
  let stored := crud.get_stocks db ticker in
  (List.length res <= n)%nat /\
  List.length res = Nat.min n (List.length stored) /\
  StronglySorted newest_first res /\
  (forall r, In r stored <-> In r db /\ Stock.ticker r = Py.upper ticker) /\
  (exists older,
      Permutation (res ++ older) stored /\
      forall r o, In r res -> In o older -> newest_first r o) /\
  ((List.length stored <= n)%nat -> Permutation res stored).
Proof.
  cbv zeta. unfold crud.get_stocks_latest_n, crud.get_stocks, crud.limit.
  set (stored := crud.filter_ticker ticker db).
  set (sorted := crud.order_by_timestamp_desc stored).
  assert (Hperm : Permutation sorted stored)
    by apply order_by_timestamp_desc_Permutation.
  assert (Hlen : List.length sorted = List.length stored)
    by now apply Permutation_length.
  destruct (firstn_sorted n sorted (order_by_timestamp_desc_sorted stored))
    as [Hs Hdom].
  split; [|split; [|split; [|split; [|split]]]].
  - apply firstn_le_length.
  - now rewrite length_firstn, Hlen.
  - exact Hs.
  - intros r. apply filter_ticker_In.
  - exists (skipn n sorted). split.
    + now rewrite firstn_skipn.
    + exact Hdom.
  - intros Hk. rewrite firstn_all2 by lia. exact Hperm.
Qed.

(** Of the four quotes, asking for 3 gives a newest-first list and asking
    for 9 gives them all. *)
Lemma get_stocks_latest_n_spec_witness :
  StronglySorted newest_first (crud.get_stocks_latest_n four_quotes "aapl" 3) /\
  Permutation (crud.get_stocks_latest_n four_quotes "aapl" 9)
              (crud.get_stocks four_quotes "aapl").
Proof.
  split.
  - exact (proj1 (proj2 (proj2
             (get_stocks_latest_n_spec four_quotes "aapl" 3)))).
  - apply (proj2 (proj2 (proj2 (proj2 (proj2
             (get_stocks_latest_n_spec four_quotes "aapl" 9)))))).
    vm_compute. lia.
Defined.

(** ** Python built-ins on non-empty lists *)

Lemma float_of_int_0 : Py.float_of_int 0 = PrimFloat.zero.
Proof. reflexivity. Qed.

(** No list length a validated window can have converts to a zero float. *)
Lemma float_of_int_nonzero (k : nat) :
  (1 <= k <= 1000)%nat ->
  PrimFloat.eqb (Py.float_of_int (Z.of_nat k)) PrimFloat.zero = false.
Proof.
  intros Hk.
  assert (Hall : forallb (fun k => negb (PrimFloat.eqb
                    (Py.float_of_int (Z.of_nat k)) PrimFloat.zero))
                   (seq 1 1000) = true) by (vm_compute; reflexivity).
  rewrite forallb_forall in Hall.
  apply negb_true_iff, Hall, in_seq. lia.
Qed.

Lemma getitem_first {A : Type} (x : A) (l : list A) :
  Py.getitem (x :: l) 0 = Ok x.
Proof.
  unfold Py.getitem. cbn [List.length].
  replace (0 <? 0) with false by reflexivity.
  replace (Z.of_nat (S (List.length l)) <=? 0) with false
    by (symmetry; apply Z.leb_gt; lia).
  reflexivity.
Qed.

Lemma last_cons_default {A : Type} (y : A) (l : list A) (d d' : A) :
  last (y :: l) d = last (y :: l) d'.
Proof.
  revert y. induction l as [|z l IH]; intros y; [reflexivity|].
  change (last (z :: l) d = last (z :: l) d'). apply IH.
Qed.

Lemma nth_error_last {A : Type} (x : A) (l : list A) :
  nth_error (x :: l) (List.length l) = Some (last l x).
Proof.
  revert x. induction l as [|y l IH]; intros x; [reflexivity|].
  cbn [List.length nth_error]. rewrite IH. f_equal.
  destruct l as [|z l']; [reflexivity|]. exact (last_cons_default z l' y x).
Qed.

Lemma getitem_last {A : Type} (x : A) (l : list A) :
  Py.getitem (x :: l) (-1) = Ok (last l x).
Proof.
  unfold Py.getitem. cbn [List.length].
  replace (-1 <? 0) with true by reflexivity.
  replace (-1 + Z.of_nat (S (List.length l)))
    with (Z.of_nat (List.length l)) by lia.
  replace (Z.of_nat (List.length l) <? 0) with false
    by (symmetry; apply Z.ltb_ge; lia).
  replace (Z.of_nat (S (List.length l)) <=? Z.of_nat (List.length l))
    with false by (symmetry; apply Z.leb_gt; lia).
  cbn [orb]. now rewrite Nat2Z.id, nth_error_last.
Qed.

(** The response of the handler on a non-empty window of at most 1000
    rows: no operation of the body raises. *)
Lemma analyze_ticker_window (ticker : string) (n : Z) (db : Session)
    (p0 : float) (ps : list float) :
  map Stock.price (window db ticker n) = p0 :: ps ->
  (List.length ps < 1000)%nat ->
  main.analyze_ticker ticker n db =
    (Ok (AnalysisResult.mk
           (Py.upper ticker)
           (Z.of_nat (S (List.length ps)))
           (Some (Py.round (last ps p0) 2))
           (Some (Py.round (fold_left Py.min_step ps p0) 2))
           (Some (Py.round (fold_left Py.max_step ps p0) 2))
           (Some (Py.round
                    (PrimFloat.div (Py.sum (p0 :: ps))
                       (Py.float_of_int (Z.of_nat (S (List.length ps))))) 2))
           (if Py.ne p0 PrimFloat.zero
            then Some (Py.round (pct p0 (last ps p0)) 2)
            else None)),
     db).
Proof.
  unfold window, main.analyze_ticker. intros Hw Hlen.
  destruct (rev (crud.get_stocks_latest_n db ticker (Z.to_nat n)))
    as [|r rows]; [discriminate|].
  rewrite Hw. cbn [List.length].
  rewrite getitem_last, getitem_first.
  unfold Py.min, Py.max, Py.truediv.
  rewrite float_of_int_nonzero by lia.
  rewrite float_of_int_0.
  cbn [bind]. unfold Py.ne.
  destruct (PrimFloat.eqb p0 PrimFloat.zero) eqn:E0; cbn [negb bind].
  - reflexivity.
  - reflexivity.
Qed.

(** The window of a validated request has at most 1000 rows. *)
Lemma window_length (db : Session) (ticker : string) (raw : option Z) (n : Z) :
  Query.validate main.analyze_ticker_n raw = Ok n ->
  2 <= n <= 1000 /\ (List.length (window db ticker n) <= 1000)%nat.
Proof.
  unfold Query.validate, main.analyze_ticker_n. cbn.
  intros Hv.
  assert (Hn : 2 <= n <= 1000).
  { destruct raw as [v|].
    - destruct ((2 <=? v) && (v <=? 1000)) eqn:E; [|discriminate].
      injection Hv as <-. apply andb_true_iff in E. lia.
    - injection Hv as <-. lia. }
  split; [exact Hn|].
  unfold window. rewrite length_rev.
  unfold crud.get_stocks_latest_n, crud.limit.
  pose proof (firstn_le_length (Z.to_nat n)
                (crud.order_by_timestamp_desc (crud.filter_ticker ticker db))).
  lia.
Qed.

Lemma last_cons {A : Type} (x : A) (l : list A) (d : A) :
  last (x :: l) d = last l x.
Proof.
  revert x. induction l as [|y l IH]; intros x; [reflexivity|].
  change (last (y :: l) d = last (y :: l) x). apply last_cons_default.
Qed.

Lemma last_map {A B : Type} (f : A -> B) (l : list A) (d : A) :
  last (map f l) (f d) = f (last l d).
Proof.
  induction l as [|x l IH]; [reflexivity|].
  destruct l as [|y l]; [reflexivity|]. exact IH.
Qed.



Lemma GET_analysis_valid (ticker : string) (raw : option Z) (n : Z)
    (db : Session) :
  Query.validate main.analyze_ticker_n raw = Ok n ->
  main.GET_analysis ticker raw db = main.analyze_ticker ticker n db.
Proof.
  intros Hv. unfold main.GET_analysis, main.with_query. now rewrite Hv.
Qed.

(** The response to a validated request whose window is [oldest :: rest]. *)
Lemma GET_analysis_window (ticker : string) (raw : option Z) (n : Z)
    (db : Session) (oldest : Stock.t) (rest : list Stock.t) :
  Query.validate main.analyze_ticker_n raw = Ok n ->
  window db ticker n = oldest :: rest ->
  let p0 := Stock.price oldest in
  let ps := map Stock.price rest in
  main.GET_analysis ticker raw db =
    (Ok (AnalysisResult.mk
           (Py.upper ticker)
           (Z.of_nat (S (List.length rest)))
           (Some (Py.round (Stock.price (last rest oldest)) 2))
           (Some (Py.round (fold_left Py.min_step ps p0) 2))
           (Some (Py.round (fold_left Py.max_step ps p0) 2))
           (Some (Py.round
                    (PrimFloat.div (Py.sum (p0 :: ps))
                       (Py.float_of_int (Z.of_nat (S (List.length rest))))) 2))
           (if Py.ne p0 PrimFloat.zero
            then Some (Py.round (pct p0 (Stock.price (last rest oldest))) 2)
            else None)),
     db).
Proof.
  intros Hv Hw p0 ps.
  rewrite (GET_analysis_valid ticker raw n db Hv).
  destruct (window_length db ticker raw n Hv) as [_ Hlen].
  rewrite Hw in Hlen. cbn [List.length] in Hlen.
  rewrite (analyze_ticker_window ticker n db p0 ps).
  - unfold ps, p0. now rewrite length_map, last_map.
  - now rewrite Hw.
  - unfold ps. rewrite length_map. lia.
Qed.

(** ** Percent change *)



(** ** The worked example *)

(** C8: when the window's prices, oldest first, are 100, 110, 90, 120, the
    response has count 4, latest 120, min 90, max 120, average 105.0 and
    percent change 20.0. *)
Theorem analysis_example (ticker : string) (raw : option Z) (n : Z)
    (db : Session) :
  Query.validate main.analyze_ticker_n raw = Ok n ->
  map Stock.price (window db ticker n)
    = [100%float; 110%float; 90%float; 120%float] ->
  main.GET_analysis ticker raw db =
    (Ok (AnalysisResult.mk (Py.upper ticker) 4
           (Some 120%float) (Some 90%float) (Some 120%float)
           (Some 105%float) (Some 20%float)),
     db).
Proof.
  intros Hv Hw. rewrite (GET_analysis_valid ticker raw n db Hv).
  rewrite (analyze_ticker_window ticker n db _ _ Hw) by (cbn; lia).
  reflexivity.
Qed.

Lemma analysis_example_witness :
  main.GET_analysis "aapl" None four_quotes =
    (Ok (AnalysisResult.mk "AAPL" 4
           (Some 120%float) (Some 90%float) (Some 120%float)
           (Some 105%float) (Some 20%float)),
     four_quotes).
Proof.
  exact (analysis_example "aapl" None 20 four_quotes eq_refl eq_refl).
Defined.

(** ** Empty windows *)

Lemma get_stocks_latest_n_empty (db : Session) (ticker : string) (k : nat) :
  crud.get_stocks db ticker = [] ->
  crud.get_stocks_latest_n db ticker k = [].
Proof.
  unfold crud.get_stocks, crud.get_stocks_latest_n, crud.limit.
  intros ->. apply firstn_nil.
Qed.

Lemma analyze_ticker_empty (ticker : string) (n : Z) (db : Session) :
  window db ticker n = [] ->
  main.analyze_ticker ticker n db =
    (Raise (HTTPException 404
              ("No records found for ticker '" ++ Py.upper ticker ++ "'")),
     db).
Proof. unfold window, main.analyze_ticker. now intros ->. Qed.

Lemma chart_ticker_empty (savefig : string -> list Z -> list float -> string)
    (ticker : string) (n : Z) (db : Session) :
  window db ticker n = [] ->
  main.chart_ticker savefig ticker n db =
    (Raise (HTTPException 404
              ("No records found for ticker '" ++ Py.upper ticker ++ "'")),
     db).
Proof. unfold window, main.chart_ticker. now intros ->. Qed.

(** C4: when no record is stored for the ticker, [/history] and, for a
    validated [n], [/analysis] and [/chart] raise the 404 exception whose
    detail contains the upper-cased ticker, and leave the session as it
    was. *)
Theorem not_found_without_records
    (savefig : string -> list Z -> list float -> string)
    (ticker : string) (raw : option Z) (n : Z) (db : Session) :
  crud.get_stocks db ticker = [] ->
  Query.validate main.analyze_ticker_n raw = Ok n ->
  let detail :=
    ("No records found for ticker '" ++ Py.upper ticker ++ "'")%string in
  contains detail (Py.upper ticker) /\
  main.stock_history ticker db = (Raise (HTTPException 404 detail), db) /\
  main.GET_analysis ticker raw db = (Raise (HTTPException 404 detail), db) /\
  main.GET_chart savefig ticker raw db
    = (Raise (HTTPException 404 detail), db).
Proof.
  intros Hnone Hv detail.
  assert (Hw : window db ticker n = []).
  { unfold window. now rewrite get_stocks_latest_n_empty. }
  split; [|split; [|split]].
  - exists "No records found for ticker '", "'". reflexivity.
  - unfold main.stock_history. now rewrite Hnone.
  - rewrite (GET_analysis_valid ticker raw n db Hv).
    now apply analyze_ticker_empty.
  - unfold main.GET_chart, main.with_query.
    change main.chart_ticker_n with main.analyze_ticker_n. rewrite Hv.
    now apply chart_ticker_empty.
Qed.

Lemma not_found_without_records_witness :
  main.stock_history "msft" four_quotes
    = (Raise (HTTPException 404 "No records found for ticker 'MSFT'"),
       four_quotes) /\
  main.GET_analysis "msft" (Some 5) four_quotes
    = (Raise (HTTPException 404 "No records found for ticker 'MSFT'"),
       four_quotes) /\
  main.GET_chart (fun _ _ _ => "png") "msft" (Some 5) four_quotes
    = (Raise (HTTPException 404 "No records found for ticker 'MSFT'"),
       four_quotes).
Proof.
  exact (proj2 (not_found_without_records (fun _ _ _ => "png") "msft"
                  (Some 5) 5 four_quotes eq_refl eq_refl)).
Defined.

(** ** Fetching a quote *)

(** C5: [/stock] raises the 404 exception naming the upper-cased ticker and
    leaves the session untouched when the provider has no row; otherwise it
    appends exactly one row (upper-cased ticker, the last close at full
    precision, the clock reading) and answers with the upper-cased ticker
    and that price rounded to 2 decimals. *)
Theorem fetch_stock_spec (yf_history : string -> list float) (utcnow : Z)
    (ticker : string) (db : Session) :
  (yf_history ticker = [] ->
   let detail := ("No data found for ticker '" ++ Py.upper ticker ++ "'")%string in
   contains detail (Py.upper ticker) /\
   main.fetch_stock yf_history utcnow ticker db
     = (Raise (HTTPException 404 detail), db)) /\
  (forall earlier price,
     yf_history ticker = earlier ++ [price] ->
     main.fetch_stock yf_history utcnow ticker db
       = (Ok (StockPrice.mk (Py.upper ticker) (Py.round price 2)),
          db ++ [Stock.mk (crud.next_id db) (Py.upper ticker) price utcnow])).
Proof.
  split.
  - intros Hdata detail. split.
    + exists "No data found for ticker '", "'". reflexivity.
    + unfold main.fetch_stock. now rewrite Hdata.
  - intros earlier price Hdata. unfold main.fetch_stock. rewrite Hdata.
    destruct (earlier ++ [price]) as [|x l] eqn:E.
    + now destruct earlier.
    + rewrite getitem_last, <- (last_cons x l price), <- E, last_last.
      reflexivity.
Qed.

(** The provider knows nothing of ["zzzinvalid"]; for ["msft"] its last
    close is the float written [2.675], which rounds to [2.67]. *)
Lemma fetch_stock_spec_witness :
  main.fetch_stock (fun _ => []) 5 "zzzinvalid" four_quotes
    = (Raise (HTTPException 404 "No data found for ticker 'ZZZINVALID'"),
       four_quotes) /\
  main.fetch_stock (fun _ => [1.5%float; 0x1.5666666666666p+1%float]) 5
                   "msft" four_quotes
    = (Ok (StockPrice.mk "MSFT" 0x1.55c28f5c28f5cp+1%float),
       four_quotes ++ [Stock.mk 5 "MSFT" 0x1.5666666666666p+1%float 5]).
Proof.
  split.
  - exact (proj2 (proj1 (fetch_stock_spec (fun _ => []) 5 "zzzinvalid"
                           four_quotes) eq_refl)).
  - exact (proj2 (fetch_stock_spec
                    (fun _ => [1.5%float; 0x1.5666666666666p+1%float]) 5
                    "msft" four_quotes)
                 [1.5%float] 0x1.5666666666666p+1%float eq_refl).
Defined.

(** ** Validation of the window size *)

(** C6: both routes declare [n] with default 20 and bounds 2 and 1000; an
    absent [n] runs the handler with 20 and a value within the bounds runs
    it with that value; any other value is rejected whatever the ticker and
    the session hold, with the session untouched: neither handler body
    runs. *)
Theorem window_size_validation
    (savefig : string -> list Z -> list float -> string)
    (ticker : string) (db : Session) :
  main.analyze_ticker_n = Query.mk 20 2 1000 /\
  main.chart_ticker_n = Query.mk 20 2 1000 /\
  main.GET_analysis ticker None db = main.analyze_ticker ticker 20 db /\
  main.GET_chart savefig ticker None db
    = main.chart_ticker savefig ticker 20 db /\
  forall v : Z,
    (2 <= v <= 1000 ->
     main.GET_analysis ticker (Some v) db = main.analyze_ticker ticker v db /\
     main.GET_chart savefig ticker (Some v) db
       = main.chart_ticker savefig ticker v db) /\
    (v < 2 \/ 1000 < v ->
     main.GET_analysis ticker (Some v) db = (Raise RequestValidationError, db) /\
     main.GET_chart savefig ticker (Some v) db
       = (Raise RequestValidationError, db)).
Proof.
  repeat (split; [reflexivity|]).
  intros v. unfold main.GET_analysis, main.GET_chart, main.with_query,
    Query.validate, main.analyze_ticker_n, main.chart_ticker_n.
  cbn [Query.ge Query.le]. split; intros Hv.
  - replace ((2 <=? v) && (v <=? 1000)) with true; [now split|].
    symmetry. apply andb_true_iff. lia.
  - replace ((2 <=? v) && (v <=? 1000)) with false; [now split|].
    symmetry. apply andb_false_iff. lia.
Qed.

(** [/analysis/ABC?n=1] is rejected, and so is [/chart/ABC?n=1001]. *)
Lemma window_size_validation_witness :
  main.GET_analysis "ABC" (Some 1) four_quotes
    = (Raise RequestValidationError, four_quotes) /\
  main.GET_chart (fun _ _ _ => "png") "ABC" (Some 1001) four_quotes
    = (Raise RequestValidationError, four_quotes).
Proof.
  pose proof (window_size_validation (fun _ _ _ => "png") "ABC" four_quotes)
    as (_ & _ & _ & _ & H).
  split.
  - apply (proj2 (H 1)). lia.
  - apply (proj2 (H 1001)). lia.
Defined.

(** ** Case-insensitive tickers *)

(** C7: a record inserted under any spelling [stored] of a ticker is kept
    under the upper-cased ticker, and [/history] asked with any path that
    upper-cases to the same text answers with a list holding that
    record. *)
Theorem history_case_insensitive (db : Session) (stored path : string)
    (price : float) (utcnow : Z) :
  Py.upper path = Py.upper stored ->
  let row := fst (crud.add_stock db stored price utcnow) in
  let db' := snd (crud.add_stock db stored price utcnow) in
  Stock.ticker row = Py.upper stored /\
  In row db' /\
  exists items,
    main.stock_history path db' = (Ok items, db') /\
    In (HistoryItem.mk (Py.upper stored) price utcnow) items.
Proof.
  intros Hcase row db'. cbn in row, db'.
  assert (Hin : In row (crud.get_stocks db' path)).
  { apply filter_ticker_In. split.
    - apply in_or_app. right. now left.
    - now rewrite Hcase. }
  split; [reflexivity|]. split; [apply in_or_app; right; now left|].
  unfold main.stock_history.
  destruct (crud.get_stocks db' path) as [|r rs] eqn:E; [destruct Hin|].
  eexists. split; [reflexivity|].
  change (HistoryItem.mk (Py.upper stored) price utcnow)
    with ((fun r => HistoryItem.mk (Stock.ticker r) (Stock.price r)
                                   (Stock.timestamp r)) row).
  now apply in_map.
Qed.

Lemma history_case_insensitive_witness :
  let row := fst (crud.add_stock four_quotes "aapl" 125%float 5) in
  let db' := snd (crud.add_stock four_quotes "aapl" 125%float 5) in
  Stock.ticker row = "AAPL" /\
  In row db' /\
  exists items,
    main.stock_history "AAPL" db' = (Ok items, db') /\
    In (HistoryItem.mk "AAPL" 125%float 5) items.
Proof.
  exact (history_case_insensitive four_quotes "aapl" "AAPL" 125%float 5
           eq_refl).
Defined.

(** ** Nullable fields *)



(** ** Facts about binary64 arithmetic *)

Lemma Prim2SF_zero_inv (x : float) (s : bool) :
  Prim2SF x = S754_zero s -> x = if s then neg_zero else PrimFloat.zero.
Proof.
  intros H. rewrite <- (SF2Prim_Prim2SF x), H. now destruct s.
Qed.

(** [0.0 + x] is [x], but for [x = -0.0]. *)
Lemma add_zero_l (x : float) :
  x <> neg_zero -> PrimFloat.add PrimFloat.zero x = x.
Proof.
  intros Hx. apply Prim2SF_inj. rewrite add_spec.
  change (Prim2SF PrimFloat.zero) with (S754_zero false).
  destruct (Prim2SF x) as [[|]| | |] eqn:E; try reflexivity.
  apply Prim2SF_zero_inv in E. contradiction.
Qed.

Lemma div_eucl_unique (a b q r : Z) :
  0 <= r < b -> a = b * q + r -> Z.div_eucl a b = (q, r).
Proof.
  intros Hr Ha.
  assert (Hq : a / b = q) by (symmetry; apply Z.div_unique with r; lia).
  assert (Hm : a mod b = r) by (symmetry; apply Z.mod_unique with q; lia).
  unfold Z.div, Z.modulo in Hq, Hm.
  destruct (Z.div_eucl a b) as [q' r']. cbn in Hq, Hm. now subst.
Qed.

Lemma div_eucl_exact (a b q : Z) :
  0 < b -> a = b * q -> Z.div_eucl a b = (q, 0).
Proof. intros Hb Ha. apply div_eucl_unique; lia. Qed.

(** Dividing a float in canonical form by 1.0 is exact: the quotient of the
    mantissas has no remainder and rounding leaves it as it is. *)
Lemma SFdiv_one (s : bool) (m : positive) (e : Z) :
  bounded prec emax m e = true ->
  SFdiv prec emax (S754_finite s m e)
        (S754_finite false 4503599627370496 (-52))
  = S754_finite s m e.
Proof.
  unfold bounded, canonical_mantissa. intros H.
  apply andb_true_iff in H. destruct H as [Hc He].
  apply Z.eqb_eq in Hc. apply Z.leb_le in He.
  unfold SFdiv, SFdiv_core_binary.
  change (Zdigits2 4503599627370496) with 53.
  change (Zdigits2 (Z.pos m)) with (Z.pos (digits2_pos m)).
  change IntDef.Z.min with Z.min. change IntDef.Z.shiftl with Z.shiftl.
  change IntDef.Z.div_eucl with Z.div_eucl.
  rewrite xorb_false_r.
  unfold binary_round_aux, shr_fexp, fexp, emin in *.
  change IntDef.Z.max with Z.max in *.
  change prec with 53 in *. change emax with 1024 in *.
  assert (Hd : Z.pos (digits2_pos m~0) = Z.pos (digits2_pos m) + 1)
    by (cbn [digits2_pos]; lia).
  set (d := Z.pos (digits2_pos m)) in *.
  assert (Hcase : (d = 53 /\ -1074 < e) \/ (e = -1074 /\ d <= 53)) by lia.
  destruct Hcase as [[Hd53 Hgt]|[He' Hd53]].
  - replace (Z.min (Z.max (d + e - (53 + -52) - 53) (3 - 1024 - 53)) (e - -52))
      with (e - 1) by lia.
    replace (e - -52 - (e - 1)) with 53 by lia.
    rewrite (div_eucl_exact _ _ (Z.pos m~0))
      by (rewrite ?Z.shiftl_mul_pow2; lia).
    change (new_location 4503599627370496 0) with loc_Exact.
    cbn [Zdigits2]. rewrite Hd.
    replace (Z.max (d + 1 + (e - 1) - 53) (3 - 1024 - 53) - (e - 1))
      with 1 by lia.
    cbn [shr shr_record_of_loc iter_pos shr_1 shr_m loc_of_shr_record
         round_nearest_even orb Zdigits2].
    fold d.
    replace (Z.max (d + (e - 1 + 1) - 53) (3 - 1024 - 53) - (e - 1 + 1))
      with 0 by lia.
    cbn [shr shr_m]. replace (e - 1 + 1) with e by lia.
    apply Z.leb_le in He. now rewrite He.
  - replace (Z.min (Z.max (d + e - (53 + -52) - 53) (3 - 1024 - 53)) (e - -52))
      with e by lia.
    replace (e - -52 - e) with 52 by lia.
    rewrite (div_eucl_exact _ _ (Z.pos m))
      by (rewrite ?Z.shiftl_mul_pow2; lia).
    change (new_location 4503599627370496 0) with loc_Exact.
    cbn [Zdigits2]. fold d.
    replace (Z.max (d + e - 53) (3 - 1024 - 53) - e) with 0 by lia.
    cbn [shr shr_record_of_loc iter_pos shr_1 shr_m loc_of_shr_record
         round_nearest_even orb Zdigits2].
    fold d.
    replace (Z.max (d + e - 53) (3 - 1024 - 53) - e) with 0 by lia.
    cbn [shr shr_m].
    apply Z.leb_le in He. now rewrite He.
Qed.

Lemma div_one (x : float) : PrimFloat.div x PrimFloat.one = x.
Proof.
  apply Prim2SF_inj. rewrite div_spec.
  change (Prim2SF PrimFloat.one)
    with (S754_finite false 4503599627370496 (-52)).
  pose proof (Prim2SF_valid x) as Hv.
  destruct (Prim2SF x) as [s|s| |s m e]; try (cbn; now rewrite ?xorb_false_r).
  now apply SFdiv_one.
Qed.

Lemma is_finite_spec (x : float) :
  PrimFloat.is_finite x = true ->
  match Prim2SF x with
  | S754_zero _ | S754_finite _ _ _ => True
  | _ => False
  end.
Proof.
  unfold is_finite, is_nan, is_infinity.
  rewrite !eqb_spec, abs_spec.
  change (Prim2SF infinity) with (S754_infinity false).
  destruct (Prim2SF x) as [s|[|]| |s m e]; cbn; try discriminate; trivial.
Qed.

Lemma sub_diag_finite (s : bool) (m : positive) (e : Z) (x : float) :
  Prim2SF x = S754_finite s m e ->
  Prim2SF (PrimFloat.sub x x) = S754_zero false.
Proof.
  intros H. rewrite sub_spec, H. unfold SF64sub, SFsub.
  cbv zeta. rewrite Z.sub_diag. reflexivity.
Qed.

(** The percent change of a finite non-zero price against itself is a
    zero, of the sign of the price. *)
Lemma pct_same (x : float) :
  PrimFloat.is_finite x = true ->
  PrimFloat.eqb x PrimFloat.zero = false ->
  pct x x = PrimFloat.zero \/ pct x x = neg_zero.
Proof.
  intros Hf Hnz. apply is_finite_spec in Hf.
  rewrite eqb_spec in Hnz.
  change (Prim2SF PrimFloat.zero) with (S754_zero false) in Hnz.
  destruct (Prim2SF x) as [s|s| |s m e] eqn:E;
    try contradiction; try discriminate.
  assert (H : Prim2SF (pct x x) = S754_zero s).
  { unfold pct. rewrite mul_spec, div_spec, (sub_diag_finite s m e x E), E.
    change (Prim2SF (Py.float_of_int 100))
      with (S754_finite false 7036874417766400 (-46)).
    cbn. now rewrite xorb_false_r. }
  apply Prim2SF_zero_inv in H. destruct s; auto.
Qed.

(** ** A single stored record *)

Lemma window_single (db : Session) (ticker : string) (n : Z) (r : Stock.t) :
  crud.get_stocks db ticker = [r] ->
  2 <= n ->
  window db ticker n = [r].
Proof.
  unfold window, crud.get_stocks, crud.get_stocks_latest_n, crud.limit.
  intros -> Hn. destruct (Z.to_nat n) as [|k] eqn:E; [lia|].
  cbn. now rewrite firstn_nil.
Qed.

(** C9, as the code has it: with exactly one record stored for the ticker,
    at price [p], a validated request is answered with count 1 and with
    [latest_price], [min_price] and [max_price] equal to [p] rounded to 2
    decimals; [avg_price] is that value too, but for [p = -0.0], whose
    average is [0.0]; [pct_change] compares equal to 0 when [p] is finite
    and differs from 0, and is null when [p] equals 0. *)
Theorem single_record_analysis (ticker : string) (raw : option Z) (n : Z)
    (db : Session) (r : Stock.t) :
  crud.get_stocks db ticker = [r] ->
  Query.validate main.analyze_ticker_n raw = Ok n ->
  let p := Stock.price r in
  exists res,
    main.GET_analysis ticker raw db = (Ok res, db) /\
    AnalysisResult.count res = 1 /\
    AnalysisResult.latest_price res = Some (Py.round p 2) /\
    AnalysisResult.min_price res = Some (Py.round p 2) /\
    AnalysisResult.max_price res = Some (Py.round p 2) /\
    (p <> neg_zero -> AnalysisResult.avg_price res = Some (Py.round p 2)) /\
    (p = neg_zero -> AnalysisResult.avg_price res = Some PrimFloat.zero) /\
    (PrimFloat.is_finite p = true ->
     Py.ne p (Py.float_of_int 0) = true ->
     exists c,
       AnalysisResult.pct_change res = Some c /\
       Py.eq c (Py.float_of_int 0) = true) /\
    (Py.eq p (Py.float_of_int 0) = true ->
     AnalysisResult.pct_change res = None).
Proof.
  intros Hone Hv p.
  destruct (window_length db ticker raw n Hv) as [Hn _].
  assert (Hw : window db ticker n = [r]) by (apply window_single; tauto).
  eexists. split; [apply (GET_analysis_window _ _ _ _ _ _ Hv Hw)|].
  cbn [AnalysisResult.count AnalysisResult.latest_price
       AnalysisResult.min_price AnalysisResult.max_price
       AnalysisResult.avg_price AnalysisResult.pct_change
       map List.length last fold_left].
  fold p. unfold Py.sum. cbn [fold_left].
  rewrite float_of_int_0.
  change (Py.float_of_int (Z.of_nat 1)) with PrimFloat.one.
  rewrite div_one. unfold Py.ne, Py.eq.
  repeat (split; [reflexivity|]).
  split; [|split; [|split]].
  - intros Hp. now rewrite add_zero_l.
  - intros ->. reflexivity.
  - intros Hfin Hnz. rewrite Hnz. apply negb_true_iff in Hnz.
    eexists. split; [reflexivity|].
    destruct (pct_same p Hfin Hnz) as [-> | ->]; reflexivity.
  - intros ->. reflexivity.
Qed.

Lemma single_record_analysis_witness :
  exists res c,
    main.GET_analysis "x" (Some 2) eighth_quote = (Ok res, eighth_quote) /\
    AnalysisResult.count res = 1 /\
    AnalysisResult.latest_price res = Some (Py.round 0.125 2) /\
    AnalysisResult.avg_price res = Some (Py.round 0.125 2) /\
    AnalysisResult.pct_change res = Some c /\
    Py.eq c (Py.float_of_int 0) = true.
Proof.
  destruct (single_record_analysis "x" (Some 2) 2 eighth_quote
              (Stock.mk 1 "X" 0.125%float 1) eq_refl eq_refl)
    as (res & H1 & H2 & H3 & _ & _ & H6 & _ & H8 & _).
  destruct (H8 eq_refl eq_refl) as (c & Hc & Hc0).
  exists res, c. repeat split; try assumption.
  apply H6. discriminate.
Defined.

(** C9 fails at an infinite price: the only record of ["X"] has a price
    that differs from 0, and [pct_change] is [nan], which does not compare
    equal to 0. *)
Lemma single_record_infinite_price :
  crud.get_stocks infinite_quote "x" = [Stock.mk 1 "X" infinity 1] /\
  Py.ne infinity (Py.float_of_int 0) = true /\
  main.GET_analysis "x" (Some 2) infinite_quote
    = (Ok (AnalysisResult.mk "X" 1 (Some infinity) (Some infinity)
             (Some infinity) (Some infinity) (Some nan)),
       infinite_quote) /\
  Py.eq nan (Py.float_of_int 0) = false.
Proof. repeat split; vm_compute; reflexivity. Qed.

(** ** The order of floats *)

(** Case analysis on every comparison of exponents and mantissas in
    sight. *)
Ltac compare_cases :=
  change IntDef.Z.compare with Z.compare in *;
  change (PosDef.Pos.compare_cont Eq) with Pos.compare in *;
  repeat match goal with
    | H : context [Z.compare ?a ?b] |- _ => destruct (Z.compare_spec a b)
    | H : context [Pos.compare ?a ?b] |- _ => destruct (Pos.compare_spec a b)
    | |- context [Z.compare ?a ?b] => destruct (Z.compare_spec a b)
    | |- context [Pos.compare ?a ?b] => destruct (Pos.compare_spec a b)
    end;
  cbn in *; try discriminate; try reflexivity; try lia.

Lemma SFleb_trans (x y z : spec_float) :
  SFleb x y = true -> SFleb y z = true -> SFleb x z = true.
Proof.
  unfold SFleb, SFcompare.
  destruct x as [[|]|[|]| |[|] m1 e1], y as [[|]|[|]| |[|] m2 e2],
           z as [[|]|[|]| |[|] m3 e3];
    try discriminate; try reflexivity; intros H1 H2; compare_cases.
Qed.

Lemma SFleb_total (x y : spec_float) :
  x <> S754_nan -> y <> S754_nan -> SFltb x y = false -> SFleb y x = true.
Proof.
  unfold SFleb, SFltb, SFcompare.
  destruct x as [[|]|[|]| |[|] m1 e1], y as [[|]|[|]| |[|] m2 e2];
    try discriminate; try reflexivity; try congruence;
    intros _ _ H; compare_cases.
Qed.

Lemma SFltb_leb (x y : spec_float) : SFltb x y = true -> SFleb x y = true.
Proof.
  unfold SFleb, SFltb. now destruct (SFcompare x y) as [[| |]|].
Qed.

Lemma is_nan_spec (x : float) :
  PrimFloat.is_nan x = false <-> Prim2SF x <> S754_nan.
Proof.
  unfold is_nan. rewrite eqb_spec. unfold SFeqb, SFcompare.
  destruct (Prim2SF x) as [[|]|[|]| |[|] m e]; cbn;
    change IntDef.Z.compare with Z.compare;
    change (PosDef.Pos.compare_cont Eq) with Pos.compare;
    rewrite ?Z.compare_refl, ?Pos.compare_refl; cbn; split; congruence.
Qed.

Lemma leb_refl (x : float) :
  PrimFloat.is_nan x = false -> PrimFloat.leb x x = true.
Proof.
  unfold is_nan. rewrite negb_false_iff, eqb_spec, leb_spec.
  unfold SFeqb, SFleb. now destruct (SFcompare _ _) as [[| |]|].
Qed.

Lemma leb_trans (x y z : float) :
  PrimFloat.leb x y = true -> PrimFloat.leb y z = true ->
  PrimFloat.leb x z = true.
Proof. rewrite !leb_spec. apply SFleb_trans. Qed.

Lemma ltb_leb (x y : float) :
  PrimFloat.ltb x y = true -> PrimFloat.leb x y = true.
Proof. rewrite ltb_spec, leb_spec. apply SFltb_leb. Qed.

Lemma not_ltb_leb (x y : float) :
  PrimFloat.is_nan x = false -> PrimFloat.is_nan y = false ->
  PrimFloat.ltb x y = false -> PrimFloat.leb y x = true.
Proof. rewrite !is_nan_spec, ltb_spec, leb_spec. apply SFleb_total. Qed.

(** ** Rounding to two decimals is monotone *)

(** [round(x, 2)] divides an integer below [2 ^ 59] by the float 100.  The
    lemmas of this section compute that quotient in closed form
    ([hundredth]), show that the closed form grows with the integer, and
    conclude that [round(x, 2)] preserves the order of floats. *)

(** The number of binary digits of a positive number. *)
Lemma digits2_pos_bounds (p : positive) :
  2 ^ (Z.pos (digits2_pos p) - 1) <= Z.pos p < 2 ^ Z.pos (digits2_pos p).
Proof.
  induction p as [p IH|p IH|]; cbn [digits2_pos]; [| |cbn; lia];
    rewrite Pos2Z.inj_succ;
    replace (Z.succ (Z.pos (digits2_pos p)) - 1)
      with (Z.succ (Z.pos (digits2_pos p) - 1)) by lia;
    rewrite !Z.pow_succ_r by lia; lia.
Qed.

Lemma pow2_lt_mono_inv (a b : Z) : 0 <= a -> 0 <= b -> 2 ^ a < 2 ^ b -> a < b.
Proof. intros Ha Hb H. apply (Z.pow_lt_mono_r_iff 2); lia. Qed.

Lemma digits2_pos_unique (p : positive) (d : Z) :
  0 < d -> 2 ^ (d - 1) <= Z.pos p < 2 ^ d -> Z.pos (digits2_pos p) = d.
Proof.
  intros Hd H. pose proof (digits2_pos_bounds p) as B.
  assert (Z.pos (digits2_pos p) - 1 < d).
  { apply pow2_lt_mono_inv; lia. }
  assert (d - 1 < Z.pos (digits2_pos p)).
  { apply pow2_lt_mono_inv; lia. }
  lia.
Qed.

Lemma digits2_pos_mono (p q : positive) :
  (p <= q)%positive -> Z.pos (digits2_pos p) <= Z.pos (digits2_pos q).
Proof.
  intros H. pose proof (digits2_pos_bounds p) as Bp.
  pose proof (digits2_pos_bounds q) as Bq.
  assert (Z.pos (digits2_pos p) - 1 < Z.pos (digits2_pos q)).
  { apply pow2_lt_mono_inv; lia. }
  lia.
Qed.

(** Rounding a quotient to the nearest integer, ties to even: monotone in
    the numerator, unchanged by a common factor, and within one of the
    floor. *)
Lemma rhe_mono (a1 a2 b : Z) :
  0 < b -> a1 <= a2 ->
  Py.round_half_even_div a1 b <= Py.round_half_even_div a2 b.
Proof.
  intros Hb H. unfold Py.round_half_even_div.
  pose proof (Z.div_mod a1 b ltac:(lia)) as E1.
  pose proof (Z.div_mod a2 b ltac:(lia)) as E2.
  pose proof (Z.mod_pos_bound a1 b Hb) as B1.
  pose proof (Z.mod_pos_bound a2 b Hb) as B2.
  assert (Hq : a1 / b <= a2 / b) by (apply Z.div_le_mono; lia).
  set (q1 := a1 / b) in *. set (q2 := a2 / b) in *.
  set (r1 := a1 mod b) in *. set (r2 := a2 mod b) in *.
  destruct (Z.eq_dec q1 q2) as [Heq|Hne].
  - assert (r1 <= r2) by nia. rewrite <- Heq.
    destruct (Z.compare_spec (2 * r1) b), (Z.compare_spec (2 * r2) b);
      destruct (Z.even q1); lia.
  - assert (q1 + 1 <= q2) by lia.
    destruct (Z.compare_spec (2 * r1) b), (Z.compare_spec (2 * r2) b);
      destruct (Z.even q1), (Z.even q2); lia.
Qed.

Lemma rhe_scale (a b c : Z) :
  0 < b -> 0 < c ->
  Py.round_half_even_div (a * c) (b * c) = Py.round_half_even_div a b.
Proof.
  intros Hb Hc. unfold Py.round_half_even_div.
  rewrite Z.div_mul_cancel_r by lia.
  rewrite Zmult_mod_distr_r.
  replace (2 * (a mod b * c)) with ((2 * (a mod b)) * c) by ring.
  assert (Hcmp : ((2 * (a mod b)) * c ?= b * c) = (2 * (a mod b) ?= b)).
  { symmetry. apply Zmult_compare_compat_r. lia. }
  now rewrite Hcmp.
Qed.

Lemma rhe_bounds (a b : Z) :
  0 < b ->
  a / b <= Py.round_half_even_div a b <= a / b + 1.
Proof.
  intros Hb. unfold Py.round_half_even_div.
  destruct (2 * (a mod b) ?= b), (Z.even (a / b)); lia.
Qed.

Lemma shr_record_of_loc_m m l : shr_m (shr_record_of_loc m l) = m.
Proof. now destruct l as [|[| |]]. Qed.

Lemma loc_of_shr_record_of_loc m l :
  loc_of_shr_record (shr_record_of_loc m l) = l.
Proof. now destruct l as [|[| |]]. Qed.

Lemma rne_cases m l :
  round_nearest_even m l = m \/ round_nearest_even m l = m + 1.
Proof.
  destruct l as [|[| |]]; cbn; auto. destruct (Z.even m); auto.
Qed.

Lemma fexp_53 e : -1074 <= e -> fexp prec emax (53 + e) = e.
Proof. unfold fexp, emin. change prec with 53. change emax with 1024.
  change IntDef.Z.max with Z.max. lia. Qed.

(** Rounding a mantissa that already has 53 bits: no shift, one step of
    nearest-even, and a carry into the next binade when the step reaches
    [2 ^ 53]. *)
Lemma binary_round_aux_53 (s : bool) (Q : positive) (e : Z) (l : location) :
  2 ^ 52 <= Z.pos Q < 2 ^ 53 -> -1074 <= e -> e + 1 <= 971 ->
  binary_round_aux prec emax s (Z.pos Q) e l =
    if round_nearest_even (Z.pos Q) l <? 2 ^ 53
    then S754_finite s (Z.to_pos (round_nearest_even (Z.pos Q) l)) e
    else S754_finite s 4503599627370496 (e + 1).
Proof.
  intros HQ He He'.
  assert (HdQ : Z.pos (digits2_pos Q) = 53)
    by (apply digits2_pos_unique; [lia | exact HQ]).
  unfold binary_round_aux, shr_fexp.
  cbn [Zdigits2]. rewrite HdQ, (fexp_53 e He), Z.sub_diag.
  cbn [shr]. rewrite shr_record_of_loc_m, loc_of_shr_record_of_loc.
  set (Q' := round_nearest_even (Z.pos Q) l).
  destruct (rne_cases (Z.pos Q) l) as [H|H]; fold Q' in H.
  - rewrite H. replace (Z.pos Q <? 2 ^ 53) with true
      by (symmetry; apply Z.ltb_lt; lia).
    cbn [Zdigits2]. rewrite HdQ, (fexp_53 e He), Z.sub_diag.
    cbn [shr shr_record_of_loc shr_m Z.to_pos].
    replace (e <=? emax - prec) with true; [reflexivity|].
    symmetry. apply Z.leb_le. change (emax - prec) with 971. lia.
  - destruct (Z.ltb_spec Q' (2 ^ 53)) as [Hlt|Hge].
    + assert (HQ' : Q' = Z.pos (Z.to_pos Q')) by (rewrite Z2Pos.id; lia).
      rewrite HQ'. cbn [Zdigits2].
      assert (HdQ' : Z.pos (digits2_pos (Z.to_pos Q')) = 53)
        by (apply digits2_pos_unique; [lia | rewrite <- HQ'; lia]).
      rewrite HdQ', (fexp_53 e He), Z.sub_diag.
      cbn [shr shr_record_of_loc shr_m].
      replace (e <=? emax - prec) with true; [now rewrite Pos2Z.id|].
      symmetry. apply Z.leb_le. change (emax - prec) with 971. lia.
    + assert (HQ' : Q' = 9007199254740992) by (change (2 ^ 53) with 9007199254740992 in *; lia).
      rewrite HQ'. cbn [Zdigits2 digits2_pos Pos.succ].
      replace (fexp prec emax (54 + e) - e) with 1.
      2:{ unfold fexp, emin. change prec with 53. change emax with 1024.
          change IntDef.Z.max with Z.max. lia. }
      cbn [shr shr_record_of_loc iter_pos shr_1 shr_m].
      replace (e + 1 <=? emax - prec) with true; [reflexivity|].
      symmetry. apply Z.leb_le. change (emax - prec) with 971. lia.
Qed.

Lemma shr_1_pos (Q : positive) (l : location) :
  2 <= Z.pos Q ->
  shr_1 (shr_record_of_loc (Z.pos Q) l) =
    {| shr_m := Z.pos Q / 2; shr_r := Z.odd (Z.pos Q); shr_s := is_inexact l |}.
Proof.
  intros HQ. destruct Q as [p|p|]; [| |lia].
  - assert (E : Z.pos p~1 / 2 = Z.pos p) by (symmetry; apply Z.div_unique with 1; lia).
    rewrite E. now destruct l as [|[| |]].
  - assert (E : Z.pos p~0 / 2 = Z.pos p) by (symmetry; apply Z.div_unique with 0; lia).
    rewrite E. now destruct l as [|[| |]].
Qed.

(** Rounding a mantissa of 54 bits: one shift, whose lost bit and sticky
    bit drive the nearest-even step; no carry when the mantissa is below
    [2 ^ 54 - 2]. *)
Lemma binary_round_aux_54 (s : bool) (Q : positive) (e : Z) (l : location) :
  2 ^ 53 <= Z.pos Q < 2 ^ 54 - 2 -> -1075 <= e -> e + 1 <= 971 ->
  binary_round_aux prec emax s (Z.pos Q) e l =
    S754_finite s
      (Z.to_pos (round_nearest_even (Z.pos Q / 2)
                   (loc_of_shr_record
                      {| shr_m := Z.pos Q / 2; shr_r := Z.odd (Z.pos Q);
                         shr_s := is_inexact l |})))
      (e + 1).
Proof.
  intros HQ He He'.
  change (2 ^ 53) with 9007199254740992 in HQ.
  change (2 ^ 54) with 18014398509481984 in HQ.
  assert (HdQ : Z.pos (digits2_pos Q) = 54)
    by (apply digits2_pos_unique; [lia|];
        change (2 ^ (54 - 1)) with 9007199254740992;
        change (2 ^ 54) with 18014398509481984; lia).
  unfold binary_round_aux, shr_fexp.
  cbn [Zdigits2]. rewrite HdQ.
  replace (fexp prec emax (54 + e) - e) with 1.
  2:{ unfold fexp, emin. change prec with 53. change emax with 1024.
      change IntDef.Z.max with Z.max. lia. }
  cbn [shr iter_pos]. rewrite shr_1_pos by lia.
  cbn [shr_m].
  set (l' := loc_of_shr_record _).
  set (H2 := Z.pos Q / 2) in *.
  assert (HH : 4503599627370496 <= H2 <= 9007199254740990)
    by (unfold H2; Z.div_mod_to_equations; lia).
  set (Q' := round_nearest_even H2 l').
  assert (HQ'b : 4503599627370496 <= Q' < 9007199254740992)
    by (destruct (rne_cases H2 l'); fold Q' in H; lia).
  assert (HQ' : Q' = Z.pos (Z.to_pos Q')) by (rewrite Z2Pos.id; lia).
  rewrite HQ' at 1 2. cbn [Zdigits2].
  assert (HdQ' : Z.pos (digits2_pos (Z.to_pos Q')) = 53)
    by (apply digits2_pos_unique; [lia | rewrite <- HQ';
        change (2 ^ (53 - 1)) with 4503599627370496;
        change (2 ^ 53) with 9007199254740992; lia]).
  rewrite HdQ', (fexp_53 (e + 1)) by lia. rewrite Z.sub_diag.
  cbn [shr shr_record_of_loc shr_m].
  replace (e + 1 <=? emax - prec) with true; [reflexivity|].
  symmetry. apply Z.leb_le. change (emax - prec) with 971. lia.
Qed.

(** An integer below [2 ^ 59], scaled by its digit count, has exactly 60
    bits. *)
Lemma scaled_bounds (q : positive) :
  let d := Z.pos (digits2_pos q) in
  Z.pos q < 2 ^ 59 ->
  1 <= d <= 59 /\
  2 ^ 59 <= Z.pos q * 2 ^ (60 - d) < 2 ^ 60.
Proof.
  intros d Hq. pose proof (digits2_pos_bounds q) as B. fold d in B.
  assert (Hpos : 0 < d) by (unfold d; lia). clearbody d.
  assert (Hd : 1 <= d <= 59).
  { split; [lia|].
    assert (d - 1 < 59) by (apply pow2_lt_mono_inv; lia). lia. }
  split; [exact Hd|].
  assert (E1 : 2 ^ 59 = 2 ^ (d - 1) * 2 ^ (60 - d))
    by (rewrite <- Z.pow_add_r by lia; f_equal; lia).
  assert (E2 : 2 ^ 60 = 2 ^ d * 2 ^ (60 - d))
    by (rewrite <- Z.pow_add_r by lia; f_equal; lia).
  assert (0 < 2 ^ (60 - d)) by (apply Z.pow_pos_nonneg; lia).
  rewrite E1, E2. nia.
Qed.

(** The nearest-even step on the quotient by 100, and on its half after
    one shift, are the roundings of [N / 100] and of [N / 200]. *)
Lemma rne_hundred (N : Z) :
  0 <= N ->
  round_nearest_even (N / 100)
    (new_location 7036874417766400 (N mod 100 * 70368744177664))
  = Py.round_half_even_div N 100.
Proof.
  intros HN. unfold new_location. 
  replace (Z.even 7036874417766400) with true by reflexivity.
  unfold new_location_even, Py.round_half_even_div.
  assert (B : 0 <= N mod 100 < 100) by (apply Z.mod_pos_bound; lia).
  change IntDef.Z.eqb with Z.eqb. change IntDef.Z.compare with Z.compare.
  change IntDef.Z.mul with Z.mul.
  destruct (Z.eqb_spec (N mod 100 * 70368744177664) 0) as [E|E].
  - assert (E0 : N mod 100 = 0) by lia. rewrite E0. reflexivity.
  - assert (Hc : (2 * (N mod 100 * 70368744177664) ?= 7036874417766400)
                 = (2 * (N mod 100) ?= 100)).
    { destruct (Z.compare_spec (2 * (N mod 100)) 100) as [H|H|H];
        [apply Z.compare_eq_iff | apply Z.compare_lt_iff
         | apply Z.compare_gt_iff]; lia. }
    rewrite Hc. cbn [round_nearest_even].
    destruct (2 * (N mod 100) ?= 100); reflexivity.
Qed.

Lemma rne_two_hundred (N : Z) :
  0 <= N ->
  round_nearest_even (N / 100 / 2)
    (loc_of_shr_record
       {| shr_m := N / 100 / 2; shr_r := Z.odd (N / 100);
          shr_s := is_inexact
                     (new_location 7036874417766400
                        (N mod 100 * 70368744177664)) |})
  = Py.round_half_even_div N 200.
Proof.
  intros HN. unfold new_location.
  replace (Z.even 7036874417766400) with true by reflexivity.
  unfold new_location_even, Py.round_half_even_div.
  change IntDef.Z.eqb with Z.eqb.
  assert (B : 0 <= N mod 100 < 100) by (apply Z.mod_pos_bound; lia).
  assert (Hdiv : N / 200 = N / 100 / 2) by (rewrite Z.div_div by lia; reflexivity).
  assert (Hmod : N mod (100 * 2) = 100 * (N / 100 mod 2) + N mod 100)
    by (rewrite Z.rem_mul_r by lia; lia).
  change (100 * 2) with 200 in Hmod.
  rewrite Hdiv, Hmod.
  rewrite (Zodd_mod (N / 100)).
  assert (B2 : N / 100 mod 2 = 0 \/ N / 100 mod 2 = 1)
    by (pose proof (Z.mod_pos_bound (N / 100) 2 ltac:(lia)); lia).
  destruct (Z.eqb_spec (N mod 100 * 70368744177664) 0) as [E|E].
  - assert (E0 : N mod 100 = 0) by lia. rewrite E0.
    destruct B2 as [-> | ->]; cbn; reflexivity.
  - assert (E0 : 0 < N mod 100) by lia.
    destruct B2 as [-> | ->]; cbn [Z.eqb is_inexact loc_of_shr_record round_nearest_even].
    + replace (2 * (100 * 0 + N mod 100) ?= 200) with Lt; [reflexivity|].
      symmetry. apply Z.compare_lt_iff. lia.
    + replace (2 * (100 * 1 + N mod 100) ?= 200) with Gt; [reflexivity|].
      symmetry. apply Z.compare_gt_iff. lia.
Qed.

(** The quotient of an integer below [2 ^ 59] by the float 100, in closed
    form. *)
Lemma SFdiv_hundred (s : bool) (q : positive) :
  Z.pos q < 2 ^ 59 ->
  SFdiv prec emax (S754_finite s q 0)
        (S754_finite false 7036874417766400 (-46))
  = S754_finite s (fst (hundredth q)) (snd (hundredth q)).
Proof.
  intros Hq. destruct (scaled_bounds q Hq) as [Hd HN].
  unfold hundredth.
  set (d := Z.pos (digits2_pos q)) in *.
  set (N := Z.pos q * 2 ^ (60 - d)) in *.
  unfold SFdiv, SFdiv_core_binary.
  change (Zdigits2 7036874417766400) with 53.
  change (Zdigits2 (Z.pos q)) with d.
  change IntDef.Z.min with Z.min. change IntDef.Z.shiftl with Z.shiftl.
  change IntDef.Z.div_eucl with Z.div_eucl.
  rewrite xorb_false_r.
  replace (Z.min (fexp prec emax (d + 0 - (53 + -46))) (0 - -46))
    with (d - 60).
  2:{ unfold fexp, emin. change prec with 53. change emax with 1024.
      change IntDef.Z.max with Z.max. lia. }
  replace (0 - -46 - (d - 60)) with (106 - d) by lia.
  destruct (106 - d) as [|sh|sh] eqn:Esh; [lia| |lia].
  rewrite <- Esh. clear sh Esh.
  assert (Hm' : Z.shiftl (Z.pos q) (106 - d) = N * 70368744177664).
  { rewrite Z.shiftl_mul_pow2 by lia. unfold N.
    replace (106 - d) with (60 - d + 46) by lia.
    rewrite Z.pow_add_r by lia. change (2 ^ 46) with 70368744177664. ring. }
  rewrite Hm'.
  rewrite (div_eucl_unique _ _ (N / 100) (N mod 100 * 70368744177664)).
  2:{ pose proof (Z.mod_pos_bound N 100 ltac:(lia)). lia. }
  2:{ pose proof (Z.div_mod N 100 ltac:(lia)). lia. }
  change (2 ^ 59) with 576460752303423488 in HN.
  change (2 ^ 60) with 1152921504606846976 in HN.
  change (2 ^ 53) with 9007199254740992.
  assert (HQ : 5764607523034234 <= N / 100 <= 11529215046068469)
    by (Z.div_mod_to_equations; lia).
  assert (HQpos : N / 100 = Z.pos (Z.to_pos (N / 100)))
    by (rewrite Z2Pos.id; lia).
  pose proof (rhe_bounds N 100 ltac:(lia)) as Hb100.
  destruct (Z.ltb_spec (N / 100) 9007199254740992) as [Hlt|Hge].
  - rewrite HQpos at 1.
    rewrite binary_round_aux_53; [|rewrite <- HQpos;
        change (2 ^ 52) with 4503599627370496;
        change (2 ^ 53) with 9007199254740992; lia | lia | lia].
    rewrite <- HQpos, rne_hundred by lia.
    change (2 ^ 53) with 9007199254740992.
    destruct (Z.ltb_spec (Py.round_half_even_div N 100) 9007199254740992)
      as [Hlt'|Hge'].
    + cbn [fst snd]. reflexivity.
    + cbn [fst snd]. f_equal; [|lia].
      assert (E : Py.round_half_even_div N 200 = 4503599627370496).
      { revert Hge'. unfold Py.round_half_even_div.
        pose proof (Z.div_mod N 100 ltac:(lia)).
        pose proof (Z.mod_pos_bound N 100 ltac:(lia)).
        pose proof (Z.div_mod N 200 ltac:(lia)).
        pose proof (Z.mod_pos_bound N 200 ltac:(lia)).
        destruct (Z.compare_spec (2 * (N mod 100)) 100);
          destruct (Z.compare_spec (2 * (N mod 200)) 200);
          destruct (Z.even (N / 100)); destruct (Z.even (N / 200)); lia. }
      now rewrite E.
  - replace (Py.round_half_even_div N 100 <? 9007199254740992) with false
      by (symmetry; apply Z.ltb_ge; lia).
    rewrite HQpos at 1.
    rewrite binary_round_aux_54; [|rewrite <- HQpos;
        change (2 ^ 53) with 9007199254740992;
        change (2 ^ 54) with 18014398509481984; lia | lia | lia].
    rewrite <- HQpos, rne_two_hundred by lia.
    cbn [fst snd]. f_equal. lia.
Qed.

Lemma to_pos_le (x y : Z) :
  0 < x -> x <= y -> (Z.to_pos x <= Z.to_pos y)%positive.
Proof. lia. Qed.

(** The closed form is a float in canonical form, between [2 ^ -7] and
    [2 ^ 53]. *)
Lemma hundredth_range (q : positive) :
  Z.pos q < 2 ^ 59 ->
  2 ^ 52 <= Z.pos (fst (hundredth q)) < 2 ^ 53 /\
  -59 <= snd (hundredth q) <= 0.
Proof.
  intros Hq. destruct (scaled_bounds q Hq) as [Hd HN].
  unfold hundredth.
  set (d := Z.pos (digits2_pos q)) in *.
  set (N := Z.pos q * 2 ^ (60 - d)) in *.
  change (2 ^ 59) with 576460752303423488 in HN.
  change (2 ^ 60) with 1152921504606846976 in HN.
  change (2 ^ 52) with 4503599627370496.
  change (2 ^ 53) with 9007199254740992.
  pose proof (rhe_bounds N 100 ltac:(lia)) as B1.
  pose proof (rhe_bounds N 200 ltac:(lia)) as B2.
  assert (HQ1 : 5764607523034234 <= N / 100 <= 11529215046068469)
    by (Z.div_mod_to_equations; lia).
  assert (HQ2 : 2882303761517117 <= N / 200 <= 5764607523034234)
    by (Z.div_mod_to_equations; lia).
  assert (Hcarry : 9007199254740992 <= Py.round_half_even_div N 100 ->
                   4503599627370496 <= Py.round_half_even_div N 200).
  { unfold Py.round_half_even_div.
    pose proof (Z.div_mod N 100 ltac:(lia)).
    pose proof (Z.mod_pos_bound N 100 ltac:(lia)).
    pose proof (Z.div_mod N 200 ltac:(lia)).
    pose proof (Z.mod_pos_bound N 200 ltac:(lia)).
    destruct (Z.compare_spec (2 * (N mod 100)) 100);
      destruct (Z.compare_spec (2 * (N mod 200)) 200);
      destruct (Z.even (N / 100)); destruct (Z.even (N / 200)); lia. }
  destruct (Z.ltb_spec (Py.round_half_even_div N 100) 9007199254740992)
    as [Hlt|Hge]; cbn [fst snd]; rewrite Z2Pos.id by lia; lia.
Qed.

Lemma hundredth_bounded (q : positive) :
  Z.pos q < 2 ^ 59 ->
  bounded prec emax (fst (hundredth q)) (snd (hundredth q)) = true.
Proof.
  intros Hq. destruct (hundredth_range q Hq) as [Hm He].
  unfold bounded, canonical_mantissa.
  rewrite (digits2_pos_unique (fst (hundredth q)) 53) by (lia || exact Hm).
  rewrite fexp_53 by lia. rewrite Z.eqb_refl. cbn [andb].
  apply Z.leb_le. change (emax - prec) with 971. lia.
Qed.

(** The closed form grows with the integer. *)
Lemma hundredth_mono (q1 q2 : positive) :
  (q1 <= q2)%positive -> Z.pos q2 < 2 ^ 59 ->
  lexle (hundredth q1) (hundredth q2).
Proof.
  intros Hle Hq2. assert (Hq1 : Z.pos q1 < 2 ^ 59) by lia.
  destruct (scaled_bounds q1 Hq1) as [Hd1 HN1].
  destruct (scaled_bounds q2 Hq2) as [Hd2 HN2].
  pose proof (digits2_pos_mono q1 q2 Hle) as Hd.
  unfold lexle, hundredth.
  set (d1 := Z.pos (digits2_pos q1)) in *.
  set (d2 := Z.pos (digits2_pos q2)) in *.
  set (N1 := Z.pos q1 * 2 ^ (60 - d1)) in *.
  set (N2 := Z.pos q2 * 2 ^ (60 - d2)) in *.
  change (2 ^ 59) with 576460752303423488 in *.
  change (2 ^ 60) with 1152921504606846976 in *.
  change (2 ^ 53) with 9007199254740992.
  pose proof (rhe_bounds N1 100 ltac:(lia)) as B1.
  pose proof (rhe_bounds N1 200 ltac:(lia)) as B1'.
  pose proof (rhe_bounds N2 100 ltac:(lia)) as B2.
  pose proof (rhe_bounds N2 200 ltac:(lia)) as B2'.
  assert (HQ1 : 5764607523034234 <= N1 / 100) by (Z.div_mod_to_equations; lia).
  assert (HQ1' : 2882303761517117 <= N1 / 200) by (Z.div_mod_to_equations; lia).
  assert (HQ2 : 5764607523034234 <= N2 / 100) by (Z.div_mod_to_equations; lia).
  assert (HQ2' : 2882303761517117 <= N2 / 200) by (Z.div_mod_to_equations; lia).
  destruct (Z.eq_dec d1 d2) as [Ed|Ed].
  - assert (HN : N1 <= N2).
    { unfold N1, N2. rewrite Ed.
      apply Z.mul_le_mono_nonneg_r; [apply Z.pow_nonneg|]; lia. }
    pose proof (rhe_mono N1 N2 100 ltac:(lia) HN) as M100.
    pose proof (rhe_mono N1 N2 200 ltac:(lia) HN) as M200.
    destruct (Z.ltb_spec (Py.round_half_even_div N1 100) 9007199254740992);
      destruct (Z.ltb_spec (Py.round_half_even_div N2 100) 9007199254740992);
      cbn [fst snd];
      first [lia | right; split; [lia|]; apply to_pos_le; lia].
  - assert (Hup : Py.round_half_even_div N1 200 <= 5764607523034235).
    { pose proof (rhe_mono N1 1152921504606846975 200 ltac:(lia) ltac:(lia)) as M.
      replace (Py.round_half_even_div 1152921504606846975 200)
        with 5764607523034235 in M by (vm_compute; reflexivity).
      exact M. }
    assert (Hlow : 5764607523034235 <= Py.round_half_even_div N2 100).
    { pose proof (rhe_mono 576460752303423488 N2 100 ltac:(lia) ltac:(lia)) as M.
      replace (Py.round_half_even_div 576460752303423488 100)
        with 5764607523034235 in M by (vm_compute; reflexivity).
      exact M. }
    destruct (Z.ltb_spec (Py.round_half_even_div N1 100) 9007199254740992);
      destruct (Z.ltb_spec (Py.round_half_even_div N2 100) 9007199254740992);
      cbn [fst snd]; lia.
Qed.

(** [round(x, 2)] through the specification of floats. *)
Lemma round_spec (x : float) : Py.round x 2 = SF2Prim (SFround2 (Prim2SF x)).
Proof.
  unfold Py.round, SFround2.
  change (10 ^ 2) with 100.
  change (Prim2SF (Py.float_of_int 100)) with F100.
  destruct (Prim2SF x) as [s|s| |s m [|p|p]] eqn:E;
    try (now rewrite <- E, SF2Prim_Prim2SF).
  now destruct (Py.round_half_even_div (Z.pos m * 100) (2 ^ Z.pos p)).
Qed.

(** What canonical form says of a mantissa and its exponent. *)
Lemma bounded_facts (m : positive) (e : Z) :
  bounded prec emax m e = true ->
  Z.pos m < 2 ^ 53 /\ -1074 <= e <= 971 /\ (-1074 < e -> 2 ^ 52 <= Z.pos m).
Proof.
  unfold bounded, canonical_mantissa, fexp, emin.
  change prec with 53. change emax with 1024.
  change IntDef.Z.max with Z.max.
  intros H. apply andb_true_iff in H. destruct H as [Hc He].
  apply Z.eqb_eq in Hc. apply Z.leb_le in He.
  pose proof (digits2_pos_bounds m) as B.
  set (d := Z.pos (digits2_pos m)) in *.
  assert (Hd : 0 < d) by (unfold d; lia). clearbody d.
  assert (Hd53 : d <= 53) by lia.
  assert (Hpow : 2 ^ d <= 2 ^ 53) by (apply Z.pow_le_mono_r; lia).
  split; [lia|]. split; [lia|].
  intros Hn. assert (d = 53) by lia. subst d. exact (proj1 B).
Qed.

Lemma pow2_pos (k : positive) : 2 <= 2 ^ Z.pos k.
Proof.
  change 2 with (2 ^ 1) at 1. apply Z.pow_le_mono_r; lia.
Qed.

(** The integer [round(x, 2)] divides by 100 is at most [100 * 2 ^ 52]. *)
Lemma scaled_range (m k : positive) :
  Z.pos m < 2 ^ 53 ->
  0 <= Py.round_half_even_div (Z.pos m * 100) (2 ^ Z.pos k)
    <= 450359962737049600.
Proof.
  intros Hm. pose proof (pow2_pos k) as Hk.
  pose proof (rhe_bounds (Z.pos m * 100) (2 ^ Z.pos k) ltac:(lia)) as B.
  change (2 ^ 53) with 9007199254740992 in Hm.
  assert (H0 : 0 <= Z.pos m * 100 / 2 ^ Z.pos k)
    by (apply Z.div_pos; lia).
  assert (H1 : Z.pos m * 100 / 2 ^ Z.pos k <= Z.pos m * 100 / 2)
    by (apply Z.div_le_compat_l; lia).
  assert (H2 : Z.pos m * 100 / 2 <= 450359962737049550)
    by (Z.div_mod_to_equations; lia).
  lia.
Qed.

Lemma SFround2_core_eq (s : bool) (m : positive) (e : Z) :
  bounded prec emax m e = true ->
  SFround2 (S754_finite s m e) =
    match round2_core m e with
    | Some (m', e') => S754_finite s m' e'
    | None => S754_zero s
    end.
Proof.
  intros Hb. destruct (bounded_facts m e Hb) as (Hm & _ & _).
  unfold SFround2, round2_core. destruct e as [|p|k]; try reflexivity.
  pose proof (scaled_range m k Hm) as Hq.
  destruct (Py.round_half_even_div (Z.pos m * 100) (2 ^ Z.pos k)) as [|q|q];
    try reflexivity.
  unfold F100. rewrite SFdiv_hundred by (change (2 ^ 59) with 576460752303423488; lia).
  now destruct (hundredth q).
Qed.

(** A quotient of exponent 0 has a mantissa of at most [2 ^ 52]: it is
    below every float of exponent 0 in canonical form. *)
Lemma hundredth_unit (q : positive) :
  Z.pos q <= 450359962737049600 ->
  snd (hundredth q) = 0 ->
  Z.pos (fst (hundredth q)) <= 2 ^ 52.
Proof.
  intros Hq. assert (Hq' : Z.pos q < 2 ^ 59)
    by (change (2 ^ 59) with 576460752303423488; lia).
  destruct (scaled_bounds q Hq') as [Hd HN].
  unfold hundredth.
  set (d := Z.pos (digits2_pos q)) in *.
  destruct (Py.round_half_even_div (Z.pos q * 2 ^ (60 - d)) 100 <? 2 ^ 53);
    cbn [fst snd]; intros E; [lia|].
  assert (d = 59) by lia. replace (60 - d) with 1 in * by lia.
  change (2 ^ 1) with 2 in *. change 200 with (100 * 2).
  rewrite rhe_scale by lia.
  pose proof (rhe_mono (Z.pos q) 450359962737049600 100 ltac:(lia) Hq) as M.
  replace (Py.round_half_even_div 450359962737049600 100)
    with 4503599627370496 in M by (vm_compute; reflexivity).
  pose proof (rhe_bounds (Z.pos q) 100 ltac:(lia)) as B.
  assert (0 < Z.pos q / 100) by (Z.div_mod_to_equations; lia).
  rewrite Z2Pos.id by lia. exact M.
Qed.

(** The integer grows with the float it is computed from. *)
Lemma scaled_mono (m1 k1 m2 k2 : positive) :
  bounded prec emax m1 (Z.neg k1) = true ->
  bounded prec emax m2 (Z.neg k2) = true ->
  lexle (m1, Z.neg k1) (m2, Z.neg k2) ->
  Py.round_half_even_div (Z.pos m1 * 100) (2 ^ Z.pos k1)
  <= Py.round_half_even_div (Z.pos m2 * 100) (2 ^ Z.pos k2).
Proof.
  intros Hb1 Hb2 [Hlt|[Heq Hm]]; cbn [fst snd] in *.
  - destruct (bounded_facts _ _ Hb1) as (Hm1 & He1 & _).
    destruct (bounded_facts _ _ Hb2) as (_ & _ & Hm2).
    specialize (Hm2 ltac:(lia)).
    change (2 ^ 53) with 9007199254740992 in *.
    change (2 ^ 52) with 4503599627370496 in *.
    assert (Hk : Z.pos k1 = Z.pos k2 + (Z.pos k1 - Z.pos k2)) by lia.
    assert (Hc : 2 <= 2 ^ (Z.pos k1 - Z.pos k2)).
    { change 2 with (2 ^ 1) at 1. apply Z.pow_le_mono_r; lia. }
    assert (Hp2 : 0 < 2 ^ Z.pos k2) by (apply Z.pow_pos_nonneg; lia).
    rewrite <- (rhe_scale (Z.pos m2 * 100) (2 ^ Z.pos k2)
                  (2 ^ (Z.pos k1 - Z.pos k2))) by lia.
    rewrite <- Z.pow_add_r, <- Hk by lia.
    apply rhe_mono; [apply Z.pow_pos_nonneg; lia | nia].
  - assert (k1 = k2) by lia. subst k2.
    apply rhe_mono; [apply Z.pow_pos_nonneg; lia | lia].
Qed.

Lemma round2_core_mono (m1 : positive) (e1 : Z) (m2 : positive) (e2 : Z) :
  bounded prec emax m1 e1 = true ->
  bounded prec emax m2 e2 = true ->
  lexle (m1, e1) (m2, e2) ->
  core_le (round2_core m1 e1) (round2_core m2 e2).
Proof.
  intros Hb1 Hb2 Hle.
  destruct (bounded_facts _ _ Hb1) as (Hm1 & He1 & _).
  destruct (bounded_facts _ _ Hb2) as (Hm2 & He2 & Hn2).
  unfold round2_core.
  destruct e1 as [|p1|k1], e2 as [|p2|k2]; try exact Hle;
    try (exfalso; destruct Hle as [H|[H _]]; cbn in H; lia).
  - (* negative exponent against 0 *)
    pose proof (scaled_range m1 k1 Hm1) as Hq.
    destruct (Py.round_half_even_div (Z.pos m1 * 100) (2 ^ Z.pos k1))
      as [|q|q]; unfold core_le; try exact I.
    destruct (hundredth_range q) as [_ Hs];
      [change (2 ^ 59) with 576460752303423488; lia|].
    unfold lexle. cbn [fst snd].
    destruct (Z.eq_dec (snd (hundredth q)) 0) as [E|E]; [|left; lia].
    right. split; [exact E|].
    pose proof (hundredth_unit q ltac:(lia) E).
    specialize (Hn2 ltac:(lia)). lia.
  - (* negative exponent against a positive one *)
    pose proof (scaled_range m1 k1 Hm1) as Hq.
    destruct (Py.round_half_even_div (Z.pos m1 * 100) (2 ^ Z.pos k1))
      as [|q|q]; unfold core_le; try exact I.
    destruct (hundredth_range q) as [_ Hs];
      [change (2 ^ 59) with 576460752303423488; lia|].
    left. cbn [fst snd]. lia.
  - (* two negative exponents *)
    pose proof (scaled_mono m1 k1 m2 k2 Hb1 Hb2 Hle) as Hq.
    pose proof (scaled_range m1 k1 Hm1) as Hq1.
    pose proof (scaled_range m2 k2 Hm2) as Hq2.
    destruct (Py.round_half_even_div (Z.pos m1 * 100) (2 ^ Z.pos k1))
      as [|q1|q1];
    destruct (Py.round_half_even_div (Z.pos m2 * 100) (2 ^ Z.pos k2))
      as [|q2|q2]; unfold core_le; try exact I; try lia.
    apply hundredth_mono; [lia | change (2 ^ 59) with 576460752303423488; lia].
Qed.

Lemma SFleb_pos (a b : positive * Z) :
  SFleb (S754_finite false (fst a) (snd a)) (S754_finite false (fst b) (snd b))
    = true <-> lexle a b.
Proof.
  destruct a as [m1 e1], b as [m2 e2]. unfold lexle, SFleb, SFcompare.
  cbn [fst snd].
  change IntDef.Z.compare with Z.compare.
  change (PosDef.Pos.compare_cont Eq) with Pos.compare.
  destruct (Z.compare_spec e1 e2); [destruct (Pos.compare_spec m1 m2)| |];
    split; intros; try discriminate; try reflexivity; lia.
Qed.

Lemma SFleb_neg (a b : positive * Z) :
  SFleb (S754_finite true (fst a) (snd a)) (S754_finite true (fst b) (snd b))
    = true <-> lexle b a.
Proof.
  destruct a as [m1 e1], b as [m2 e2]. unfold lexle, SFleb, SFcompare.
  cbn [fst snd].
  change IntDef.Z.compare with Z.compare.
  change (PosDef.Pos.compare_cont Eq) with Pos.compare.
  destruct (Z.compare_spec e1 e2); [destruct (Pos.compare_spec m1 m2)| |];
    cbn; split; intros; try discriminate; try reflexivity; lia.
Qed.

Lemma round2_core_bounded (m : positive) (e : Z) (r : positive * Z) :
  bounded prec emax m e = true ->
  round2_core m e = Some r ->
  bounded prec emax (fst r) (snd r) = true.
Proof.
  intros Hb. destruct (bounded_facts m e Hb) as (Hm & _ & _).
  unfold round2_core. destruct e as [|p|k];
    try (intros [= <-]; exact Hb).
  pose proof (scaled_range m k Hm) as Hq.
  destruct (Py.round_half_even_div (Z.pos m * 100) (2 ^ Z.pos k)) as [|q|q];
    try discriminate.
  intros [= <-]. apply hundredth_bounded.
  change (2 ^ 59) with 576460752303423488. lia.
Qed.

Lemma SFround2_valid (x : spec_float) :
  valid_binary x = true -> valid_binary (SFround2 x) = true.
Proof.
  destruct x as [s|s| |s m e]; try (intros; reflexivity).
  intros Hb. cbn [valid_binary] in Hb. rewrite SFround2_core_eq by exact Hb.
  destruct (round2_core m e) as [[m' e']|] eqn:E; [|reflexivity].
  exact (round2_core_bounded m e (m', e') Hb E).
Qed.

(** Rounding preserves the order, whatever the signs. *)
Lemma SFround2_mono (x y : spec_float) :
  valid_binary x = true -> valid_binary y = true ->
  SFleb x y = true -> SFleb (SFround2 x) (SFround2 y) = true.
Proof.
  intros Hx Hy Hle.
  destruct x as [sx|sx| |sx mx ex], y as [sy|sy| |sy my ey];
    try exact Hle; try discriminate Hle;
    cbn [valid_binary] in Hx, Hy.
  - (* zero, finite *)
    rewrite (SFround2_core_eq _ _ _ Hy). cbn [SFround2].
    destruct sy; [discriminate Hle|].
    now destruct (round2_core my ey) as [[m' e']|].
  - (* infinity, finite *)
    rewrite (SFround2_core_eq _ _ _ Hy). cbn [SFround2].
    destruct sx; [|discriminate Hle].
    now destruct (round2_core my ey) as [[m' e']|].
  - (* finite, zero *)
    rewrite (SFround2_core_eq _ _ _ Hx). cbn [SFround2].
    destruct sx; [|discriminate Hle].
    now destruct (round2_core mx ex) as [[m' e']|].
  - (* finite, infinity *)
    rewrite (SFround2_core_eq _ _ _ Hx). cbn [SFround2].
    destruct sy; [destruct sx; discriminate Hle|].
    now destruct (round2_core mx ex) as [[m' e']|], sx.
  - (* finite, finite *)
    rewrite (SFround2_core_eq _ _ _ Hx), (SFround2_core_eq _ _ _ Hy).
    destruct sx, sy.
    + apply (SFleb_neg (mx, ex) (my, ey)) in Hle.
      pose proof (round2_core_mono _ _ _ _ Hy Hx Hle) as Hc.
      destruct (round2_core my ey) as [b|], (round2_core mx ex) as [a|];
        cbn [core_le] in Hc; try contradiction.
      * destruct a, b. now apply (SFleb_neg (_, _) (_, _)).
      * now destruct a.
      * reflexivity.
    + now destruct (round2_core mx ex) as [[? ?]|],
                   (round2_core my ey) as [[? ?]|].
    + discriminate Hle.
    + apply (SFleb_pos (mx, ex) (my, ey)) in Hle.
      pose proof (round2_core_mono _ _ _ _ Hx Hy Hle) as Hc.
      destruct (round2_core mx ex) as [a|], (round2_core my ey) as [b|];
        cbn [core_le] in Hc; try contradiction.
      * destruct a, b. now apply (SFleb_pos (_, _) (_, _)).
      * now destruct b.
      * reflexivity.
Qed.

(** [x <= y] implies [round(x, 2) <= round(y, 2)]. *)
Lemma round_mono (x y : float) :
  PrimFloat.leb x y = true ->
  PrimFloat.leb (Py.round x 2) (Py.round y 2) = true.
Proof.
  rewrite !leb_spec, !round_spec. intros Hle.
  rewrite !Prim2SF_SF2Prim by (apply SFround2_valid, Prim2SF_valid).
  apply SFround2_mono; auto using Prim2SF_valid.
Qed.

(** ** Extrema of a window *)

(** On floats that are not [nan], the scan of [min] ends on an item of the
    list that is below every item. *)
Lemma fold_min_step_spec (ps : list float) (cur : float) :
  PrimFloat.is_nan cur = false ->
  Forall (fun p => PrimFloat.is_nan p = false) ps ->
  let lo := fold_left Py.min_step ps cur in
  In lo (cur :: ps) /\
  PrimFloat.is_nan lo = false /\
  forall p, In p (cur :: ps) -> PrimFloat.leb lo p = true.
Proof.
  revert cur. induction ps as [|x ps IH]; intros cur Hcur Hps; cbn zeta.
  - cbn. split; [now left|]. split; [exact Hcur|].
    intros p [<-|[]]. now apply leb_refl.
  - inversion Hps as [|? ? Hx Hps']; subst. cbn [fold_left].
    assert (Hstep : PrimFloat.is_nan (Py.min_step cur x) = false /\
                    PrimFloat.leb (Py.min_step cur x) cur = true /\
                    PrimFloat.leb (Py.min_step cur x) x = true /\
                    (Py.min_step cur x = cur \/ Py.min_step cur x = x)).
    { unfold Py.min_step. destruct (PrimFloat.ltb x cur) eqn:E.
      - auto using ltb_leb, leb_refl.
      - auto using not_ltb_leb, leb_refl. }
    destruct Hstep as (Hn & Hc & Hxx & Hor).
    destruct (IH (Py.min_step cur x) Hn Hps') as (Hin & Hnan & Hle).
    split; [|split; [exact Hnan|]].
    + destruct Hin as [Hin|Hin]; [|now right; right].
      rewrite <- Hin. destruct Hor as [-> | ->]; [now left | right; now left].
    + intros p [<-|[<-|Hp]].
      * eapply leb_trans; [|exact Hc]. apply Hle. now left.
      * eapply leb_trans; [|exact Hxx]. apply Hle. now left.
      * apply Hle. now right.
Qed.

Lemma fold_max_step_spec (ps : list float) (cur : float) :
  PrimFloat.is_nan cur = false ->
  Forall (fun p => PrimFloat.is_nan p = false) ps ->
  let hi := fold_left Py.max_step ps cur in
  In hi (cur :: ps) /\
  PrimFloat.is_nan hi = false /\
  forall p, In p (cur :: ps) -> PrimFloat.leb p hi = true.
Proof.
  revert cur. induction ps as [|x ps IH]; intros cur Hcur Hps; cbn zeta.
  - cbn. split; [now left|]. split; [exact Hcur|].
    intros p [<-|[]]. now apply leb_refl.
  - inversion Hps as [|? ? Hx Hps']; subst. cbn [fold_left].
    assert (Hstep : PrimFloat.is_nan (Py.max_step cur x) = false /\
                    PrimFloat.leb cur (Py.max_step cur x) = true /\
                    PrimFloat.leb x (Py.max_step cur x) = true /\
                    (Py.max_step cur x = cur \/ Py.max_step cur x = x)).
    { unfold Py.max_step. destruct (PrimFloat.ltb cur x) eqn:E.
      - auto using ltb_leb, leb_refl.
      - auto using not_ltb_leb, leb_refl. }
    destruct Hstep as (Hn & Hc & Hxx & Hor).
    destruct (IH (Py.max_step cur x) Hn Hps') as (Hin & Hnan & Hle).
    split; [|split; [exact Hnan|]].
    + destruct Hin as [Hin|Hin]; [|now right; right].
      rewrite <- Hin. destruct Hor as [-> | ->]; [now left | right; now left].
    + intros p [<-|[<-|Hp]].
      * eapply leb_trans; [exact Hc|]. apply Hle. now left.
      * eapply leb_trans; [exact Hxx|]. apply Hle. now left.
      * apply Hle. now right.
Qed.

Lemma last_In {A : Type} (x : A) (l : list A) : In (last l x) (x :: l).
Proof.
  revert x. induction l as [|y l IH]; intros x; [now left|].
  right. rewrite (last_cons y l x). apply IH.
Qed.

(** C2, as the code has it: on a non-empty window holding no [nan],
    [min_price] and [max_price] are the roundings to 2 decimals of two
    prices of the window, [lo] and [hi]; every price [p] of the window
    satisfies [lo <= p <= hi] and, once rounded,
    [min_price <= round(p, 2) <= max_price]; so
    [min_price <= latest_price <= max_price]. *)
Theorem extrema_bound_window (ticker : string) (raw : option Z) (n : Z)
    (db : Session) (oldest : Stock.t) (rest : list Stock.t) :
  Query.validate main.analyze_ticker_n raw = Ok n ->
  window db ticker n = oldest :: rest ->
  let prices := map Stock.price (oldest :: rest) in
  Forall (fun p => PrimFloat.is_nan p = false) prices ->
  exists res lo hi latest,
    main.GET_analysis ticker raw db = (Ok res, db) /\
    In lo prices /\ In hi prices /\
    AnalysisResult.min_price res = Some (Py.round lo 2) /\
    AnalysisResult.max_price res = Some (Py.round hi 2) /\
    AnalysisResult.latest_price res = Some latest /\
    (forall p, In p prices ->
       PrimFloat.leb lo p = true /\ PrimFloat.leb p hi = true /\
       PrimFloat.leb (Py.round lo 2) (Py.round p 2) = true /\
       PrimFloat.leb (Py.round p 2) (Py.round hi 2) = true) /\
    PrimFloat.leb (Py.round lo 2) latest = true /\
    PrimFloat.leb latest (Py.round hi 2) = true.
Proof.
  intros Hv Hw prices Hnan. unfold prices in *. cbn [map] in *.
  inversion Hnan as [|? ? H0 Hrest]; subst.
  destruct (fold_min_step_spec _ _ H0 Hrest) as (Hlo & _ & Hmin).
  destruct (fold_max_step_spec _ _ H0 Hrest) as (Hhi & _ & Hmax).
  set (lo := fold_left Py.min_step (map Stock.price rest)
               (Stock.price oldest)) in *.
  set (hi := fold_left Py.max_step (map Stock.price rest)
               (Stock.price oldest)) in *.
  assert (Hnewest : In (Stock.price (last rest oldest))
                       (Stock.price oldest :: map Stock.price rest)).
  { rewrite <- last_map. apply last_In. }
  eexists. exists lo, hi, (Py.round (Stock.price (last rest oldest)) 2).
  split; [apply (GET_analysis_window _ _ _ _ _ _ Hv Hw)|].
  cbn [AnalysisResult.min_price AnalysisResult.max_price
       AnalysisResult.latest_price].
  repeat (split; [assumption || reflexivity|]).
  split; [|split].
  - intros p Hp. specialize (Hmin p Hp). specialize (Hmax p Hp).
    auto using round_mono.
  - apply round_mono. now apply Hmin.
  - apply round_mono. now apply Hmax.
Qed.

Lemma extrema_bound_window_witness :
  exists res lo hi latest,
    main.GET_analysis "aapl" None four_quotes = (Ok res, four_quotes) /\
    In lo [100%float; 110%float; 90%float; 120%float] /\
    In hi [100%float; 110%float; 90%float; 120%float] /\
    AnalysisResult.min_price res = Some (Py.round lo 2) /\
    AnalysisResult.max_price res = Some (Py.round hi 2) /\
    AnalysisResult.latest_price res = Some latest /\
    (forall p, In p [100%float; 110%float; 90%float; 120%float] ->
       PrimFloat.leb lo p = true /\ PrimFloat.leb p hi = true /\
       PrimFloat.leb (Py.round lo 2) (Py.round p 2) = true /\
       PrimFloat.leb (Py.round p 2) (Py.round hi 2) = true) /\
    PrimFloat.leb (Py.round lo 2) latest = true /\
    PrimFloat.leb latest (Py.round hi 2) = true.
Proof.
  apply (extrema_bound_window "aapl" None 20 four_quotes
           (Stock.mk 1 "AAPL" 100%float 1)
           [Stock.mk 2 "AAPL" 110%float 2;
            Stock.mk 3 "AAPL" 90%float 3;
            Stock.mk 4 "AAPL" 120%float 4]
           eq_refl eq_refl).
  repeat constructor.
Defined.

(** C2 fails on the rounded fields.  Three quotes at the float [1.565]
    give [max_price = 1.56] and [avg_price = 1.57]: the sum of the three
    is rounded up and so is its third.  A single quote at 0.125 gives
    [max_price = 0.12], below the price itself.  And a window whose oldest
    price is [nan] has [min_price = nan], which is below nothing. *)
Lemma rounded_bounds_counterexample :
  main.GET_analysis "x" None flat_quotes
    = (Ok (AnalysisResult.mk "X" 3
             (Some 0x1.8f5c28f5c28f6p+0%float)
             (Some 0x1.8f5c28f5c28f6p+0%float)
             (Some 0x1.8f5c28f5c28f6p+0%float)
             (Some 0x1.91eb851eb851fp+0%float)
             (Some 0%float)),
       flat_quotes) /\
  PrimFloat.ltb 0x1.8f5c28f5c28f6p+0 0x1.91eb851eb851fp+0 = true /\
  main.GET_analysis "x" None eighth_quote
    = (Ok (AnalysisResult.mk "X" 1
             (Some 0x1.eb851eb851eb8p-4%float)
             (Some 0x1.eb851eb851eb8p-4%float)
             (Some 0x1.eb851eb851eb8p-4%float)
             (Some 0x1.eb851eb851eb8p-4%float)
             (Some 0%float)),
       eighth_quote) /\
  map Stock.price (window eighth_quote "x" 20) = [0.125%float] /\
  PrimFloat.ltb 0x1.eb851eb851eb8p-4 0.125 = true /\
  main.GET_analysis "x" None nan_first
    = (Ok (AnalysisResult.mk "X" 2
             (Some 1%float) (Some nan) (Some nan) (Some nan) (Some nan)),
       nan_first) /\
  map Stock.price (window nan_first "x" 20) = [nan; 1%float] /\
  PrimFloat.leb nan 1 = false.
Proof. repeat split; vm_compute; reflexivity. Qed.

(** * Further properties of the handlers and the queries *)

(** ** Normalised tickers *)

Lemma upper_ascii_idempotent (c : ascii) :
  Py.upper_ascii (Py.upper_ascii c) = Py.upper_ascii c.
Proof.
  destruct c as [[|] [|] [|] [|] [|] [|] [|] [|]]; reflexivity.
Qed.

Lemma upper_idempotent (s : string) : Py.upper (Py.upper s) = Py.upper s.
Proof.
  induction s as [|c s IH]; [reflexivity|].
  cbn [Py.upper]. now rewrite upper_ascii_idempotent, IH.
Qed.

Lemma next_id_above (db : Session) (r : Stock.t) :
  In r db -> Stock.id r < crud.next_id db.
Proof.
  unfold crud.next_id. induction db as [|x db IH]; [intros []|].
  cbn [fold_right]. intros [<-|Hr]; [lia|]. specialize (IH Hr). lia.
Qed.

Lemma filter_ticker_app (ticker : string) (l1 l2 : list Stock.t) :
  crud.filter_ticker ticker (l1 ++ l2)
  = crud.filter_ticker ticker l1 ++ crud.filter_ticker ticker l2.
Proof. apply filter_app. Qed.

Lemma get_stocks_add_stock_eq (db : Session) (stored path : string)
    (price : float) (utcnow : Z) :
  crud.get_stocks (snd (crud.add_stock db stored price utcnow)) path
  = crud.get_stocks db path ++
    (if String.eqb (Py.upper stored) (Py.upper path)
     then [fst (crud.add_stock db stored price utcnow)] else []).
Proof.
  unfold crud.get_stocks, crud.add_stock. cbn [fst snd].
  rewrite filter_ticker_app. reflexivity.
Qed.

(** ** Rows and their keys *)

(** X1: [add_stock] gives the new row a rowid above every rowid in use,
    leaves the rows already stored in place and in order, lengthens the
    table by one, and keeps the rowids pairwise distinct. *)
Theorem add_stock_keeps_unique_ids (db : Session) (ticker : string)
    (price : float) (utcnow : Z) :
  unique_ids db ->
  let row := fst (crud.add_stock db ticker price utcnow) in
  let db' := snd (crud.add_stock db ticker price utcnow) in
  (forall r, In r db -> Stock.id r < Stock.id row) /\
  firstn (List.length db) db' = db /\
  List.length db' = S (List.length db) /\
  unique_ids db'.
Proof.
  intros Hu row db'. cbn in row, db'.
  split; [intros r Hr; now apply next_id_above|].
  split; [unfold db'; now rewrite firstn_app, Nat.sub_diag, firstn_all,
            app_nil_r|].
  split; [unfold db'; rewrite length_app; cbn; lia|].
  unfold unique_ids, db'. rewrite map_app. cbn [map].
  apply NoDup_app; [exact Hu | repeat constructor; intros [] |].
  intros i Hi [<-|[]]. apply in_map_iff in Hi. destruct Hi as (r & Hid & Hr).
  pose proof (next_id_above db r Hr). cbn [Stock.id] in Hid. lia.
Qed.

Lemma add_stock_keeps_unique_ids_witness :
  let db' := snd (crud.add_stock four_quotes "msft" 7%float 9) in
  map Stock.id db' = [1; 2; 3; 4; 5] /\ unique_ids db'.
Proof.
  split; [reflexivity|].
  apply (add_stock_keeps_unique_ids four_quotes "msft" 7%float 9).
  unfold unique_ids. cbn.
  repeat (constructor; [cbn; intuition discriminate|]). constructor.
Defined.

(** X2: after [add_stock] under one spelling of a ticker, [get_stocks]
    asked with any spelling of the same ticker returns what it returned
    before followed by the new row; asked with another ticker it returns
    what it returned before. *)
Theorem get_stocks_after_add_stock (db : Session) (stored path : string)
    (price : float) (utcnow : Z) :
  let row := fst (crud.add_stock db stored price utcnow) in
  let db' := snd (crud.add_stock db stored price utcnow) in
  (Py.upper path = Py.upper stored ->
   crud.get_stocks db' path = crud.get_stocks db path ++ [row]) /\
  (Py.upper path <> Py.upper stored ->
   crud.get_stocks db' path = crud.get_stocks db path).
Proof.
  intros row db'. unfold row, db'. rewrite get_stocks_add_stock_eq.
  split; intros H.
  - rewrite H, String.eqb_refl. reflexivity.
  - destruct (String.eqb_spec (Py.upper stored) (Py.upper path)) as [E|E];
      [now symmetry in E | apply app_nil_r].
Qed.

Lemma get_stocks_after_add_stock_witness :
  let db' := snd (crud.add_stock four_quotes "Msft" 7%float 9) in
  crud.get_stocks db' "mSFT" = [Stock.mk 5 "MSFT" 7%float 9] /\
  crud.get_stocks db' "aapl" = crud.get_stocks four_quotes "aapl".
Proof.
  split.
  - exact (proj1 (get_stocks_after_add_stock four_quotes "Msft" "mSFT"
                    7%float 9) eq_refl).
  - apply (proj2 (get_stocks_after_add_stock four_quotes "Msft" "aapl"
                    7%float 9)). discriminate.
Defined.

(** ** The newest quote *)

Lemma order_by_snoc_newest (l : list Stock.t) (new : Stock.t) :
  (forall r, In r l -> Stock.timestamp r < Stock.timestamp new) ->
  crud.order_by_timestamp_desc (l ++ [new])
  = new :: crud.order_by_timestamp_desc l.
Proof.
  unfold crud.order_by_timestamp_desc. rewrite fold_right_app.
  cbn [fold_right crud.insert_desc].
  induction l as [|x l IH]; intros Hl; [reflexivity|].
  cbn [fold_right]. rewrite IH by (intros r Hr; apply Hl; now right).
  cbn [crud.insert_desc].
  replace (Stock.timestamp new <=? Stock.timestamp x) with false;
    [reflexivity|].
  symmetry. apply Z.leb_gt. apply Hl. now left.
Qed.

Lemma latest_n_add_stock_newest (db : Session) (stored path : string)
    (price : float) (utcnow : Z) (k : nat) :
  Py.upper path = Py.upper stored ->
  (forall r, In r (crud.get_stocks db path) -> Stock.timestamp r < utcnow) ->
  crud.get_stocks_latest_n (snd (crud.add_stock db stored price utcnow))
                           path (S k)
  = fst (crud.add_stock db stored price utcnow)
      :: crud.get_stocks_latest_n db path k.
Proof.
  intros Hcase Hnew.
  pose proof (get_stocks_add_stock_eq db stored path price utcnow) as Hg.
  rewrite Hcase, String.eqb_refl in Hg.
  unfold crud.get_stocks in Hg, Hnew.
  unfold crud.get_stocks_latest_n, crud.limit. rewrite Hg.
  rewrite order_by_snoc_newest; [reflexivity|exact Hnew].
Qed.

(** X3: when the clock reading of a new row is later than the timestamp
    of every row stored for its ticker, the new row heads the bounded
    newest-first query, followed by what the query returned for one row
    less; so it comes last in the window the handlers work on. *)
Theorem newest_quote_heads_latest_n (db : Session) (stored path : string)
    (price : float) (utcnow : Z) (k : nat) :
  Py.upper path = Py.upper stored ->
  (forall r, In r (crud.get_stocks db path) -> Stock.timestamp r < utcnow) ->
  let row := fst (crud.add_stock db stored price utcnow) in
  let db' := snd (crud.add_stock db stored price utcnow) in
  crud.get_stocks_latest_n db' path (S k)
    = row :: crud.get_stocks_latest_n db path k /\
  window db' path (Z.of_nat (S k))
    = window db path (Z.of_nat k) ++ [row].
Proof.
  intros Hcase Hnew row db'.
  pose proof (latest_n_add_stock_newest db stored path price utcnow k
                Hcase Hnew) as H.
  split; [exact H|].
  unfold window. rewrite !Nat2Z.id. fold row db' in H. rewrite H.
  reflexivity.
Qed.

Lemma newest_quote_heads_latest_n_witness :
  let db' := snd (crud.add_stock four_quotes "AAPL" 125%float 5) in
  crud.get_stocks_latest_n db' "aapl" 2
    = [Stock.mk 5 "AAPL" 125%float 5; Stock.mk 4 "AAPL" 120%float 4].
Proof.
  apply (newest_quote_heads_latest_n four_quotes "AAPL" "aapl" 125%float 5 1
           eq_refl).
  intros r Hr. cbn in Hr.
  destruct Hr as [<-|[<-|[<-|[<-|[]]]]]; cbn; lia.
Defined.

(** ** A quote, then the read routes *)

Lemma fetch_stock_ok (yf_history : string -> list float) (utcnow : Z)
    (ticker : string) (db : Session) (earlier : list float) (price : float) :
  yf_history ticker = earlier ++ [price] ->
  main.fetch_stock yf_history utcnow ticker db
    = (Ok (StockPrice.mk (Py.upper ticker) (Py.round price 2)),
       snd (crud.add_stock db ticker price utcnow)).
Proof.
  intros Hdata. unfold main.fetch_stock. rewrite Hdata.
  destruct (earlier ++ [price]) as [|x l] eqn:E.
  - now destruct earlier.
  - rewrite getitem_last, <- (last_cons x l price), <- E, last_last.
    reflexivity.
Qed.

Lemma snoc_cons {A : Type} (l : list A) (a : A) :
  exists x rest, l ++ [a] = x :: rest /\ last rest x = a.
Proof.
  destruct (l ++ [a]) as [|x rest] eqn:E; [now destruct l|].
  exists x, rest. split; [reflexivity|].
  rewrite <- (last_cons x rest a), <- E. apply last_last.
Qed.

(** X4: when the provider has data and the clock is later than every
    timestamp stored for the ticker, [/stock] succeeds and an [/analysis]
    request that follows reports, under the same upper-cased ticker, a
    [latest_price] equal to the price [/stock] answered with. *)
Theorem fetched_price_is_latest_price
    (yf_history : string -> list float) (utcnow : Z) (ticker : string)
    (db : Session) (earlier : list float) (price : float)
    (raw : option Z) (n : Z) :
  yf_history ticker = earlier ++ [price] ->
  (forall r, In r (crud.get_stocks db ticker) -> Stock.timestamp r < utcnow) ->
  Query.validate main.analyze_ticker_n raw = Ok n ->
  exists body db' res,
    main.fetch_stock yf_history utcnow ticker db = (Ok body, db') /\
    main.GET_analysis ticker raw db' = (Ok res, db') /\
    AnalysisResult.ticker res = StockPrice.ticker body /\
    AnalysisResult.latest_price res = Some (StockPrice.price body).
Proof.
  intros Hdata Hnew Hv.
  destruct (window_length db ticker raw n Hv) as [Hn _].
  assert (Hw : window (snd (crud.add_stock db ticker price utcnow)) ticker n
               = window db ticker (n - 1)
                 ++ [fst (crud.add_stock db ticker price utcnow)]).
  { unfold window. replace (Z.to_nat n) with (S (Z.to_nat (n - 1))) by lia.
    now rewrite latest_n_add_stock_newest. }
  destruct (snoc_cons (window db ticker (n - 1))
              (fst (crud.add_stock db ticker price utcnow)))
    as (oldest & rest & E & Hlast).
  rewrite E in Hw.
  eexists. eexists. eexists.
  split; [apply (fetch_stock_ok _ _ _ _ _ _ Hdata)|].
  split; [apply (GET_analysis_window _ _ _ _ _ _ Hv Hw)|].
  cbn [AnalysisResult.ticker AnalysisResult.latest_price
       StockPrice.ticker StockPrice.price].
  rewrite Hlast. split; reflexivity.
Qed.

Lemma fetched_price_is_latest_price_witness :
  exists body db' res,
    main.fetch_stock (fun _ => [0x1.5666666666666p+1%float]) 5 "aapl"
                     four_quotes = (Ok body, db') /\
    main.GET_analysis "aapl" None db' = (Ok res, db') /\
    AnalysisResult.ticker res = StockPrice.ticker body /\
    AnalysisResult.latest_price res = Some (StockPrice.price body).
Proof.
  apply (fetched_price_is_latest_price
           (fun _ => [0x1.5666666666666p+1%float]) 5 "aapl" four_quotes
           [] 0x1.5666666666666p+1%float None 20 eq_refl);
    [|reflexivity].
  intros r Hr. cbn in Hr.
  destruct Hr as [<-|[<-|[<-|[<-|[]]]]]; cbn; lia.
Defined.

Lemma stock_history_ok (ticker : string) (db : Session) :
  crud.get_stocks db ticker <> [] ->
  main.stock_history ticker db
    = (Ok (map history_item (crud.get_stocks db ticker)), db).
Proof.
  unfold main.stock_history. intros H.
  destruct (crud.get_stocks db ticker); [contradiction|reflexivity].
Qed.

(** X5: after a successful [/stock], [/history] for the same ticker
    answers with the items it listed before followed by the new quote,
    whose price is the provider's close at full precision, while the body
    of [/stock] carried that close rounded to 2 decimals. *)
Theorem fetched_quote_ends_history
    (yf_history : string -> list float) (utcnow : Z) (ticker : string)
    (db : Session) (earlier : list float) (price : float) :
  yf_history ticker = earlier ++ [price] ->
  exists body db',
    main.fetch_stock yf_history utcnow ticker db = (Ok body, db') /\
    StockPrice.price body = Py.round price 2 /\
    main.stock_history ticker db'
      = (Ok (map history_item (crud.get_stocks db ticker)
             ++ [HistoryItem.mk (Py.upper ticker) price utcnow]),
         db').
Proof.
  intros Hdata. eexists. eexists.
  split; [apply (fetch_stock_ok _ _ _ _ _ _ Hdata)|].
  split; [reflexivity|].
  pose proof (get_stocks_add_stock_eq db ticker ticker price utcnow) as Hg.
  rewrite String.eqb_refl in Hg.
  rewrite stock_history_ok; rewrite Hg.
  - now rewrite map_app.
  - now destruct (crud.get_stocks db ticker).
Qed.

Lemma fetched_quote_ends_history_witness :
  exists body db',
    main.fetch_stock (fun _ => [0x1.5666666666666p+1%float]) 5 "msft"
                     four_quotes = (Ok body, db') /\
    StockPrice.price body = 0x1.55c28f5c28f5cp+1%float /\
    main.stock_history "msft" db'
      = (Ok [HistoryItem.mk "MSFT" 0x1.5666666666666p+1%float 5], db').
Proof.
  exact (fetched_quote_ends_history
           (fun _ => [0x1.5666666666666p+1%float]) 5 "msft" four_quotes
           [] 0x1.5666666666666p+1%float eq_refl).
Defined.

(** ** The chart series *)

Lemma sorted_rev_ascending (l : list Stock.t) :
  StronglySorted newest_first l ->
  StronglySorted Z.le (map Stock.timestamp (rev l)).
Proof.
  induction 1 as [|x l Hs IH Hx]; [constructor|].
  cbn [rev]. rewrite map_app. cbn [map].
  assert (Happ : forall l1 : list Z,
             StronglySorted Z.le l1 ->
             Forall (fun t => t <= Stock.timestamp x) l1 ->
             StronglySorted Z.le (l1 ++ [Stock.timestamp x])).
  { induction 1 as [|t l1 Hl1 IHl1 Ht]; intros Hle.
    - repeat constructor.
    - inversion Hle as [|? ? Htx Hle']; subst. cbn. constructor.
      + now apply IHl1.
      + apply Forall_app. split; [exact Ht | now repeat constructor]. }
  apply Happ; [exact IH|].
  apply Forall_forall. intros t Ht. apply in_map_iff in Ht.
  destruct Ht as (r & <- & Hr). apply in_rev in Hr.
  rewrite Forall_forall in Hx. now apply Hx.
Qed.

Lemma window_nonempty (db : Session) (ticker : string) (n : Z) :
  crud.get_stocks db ticker <> [] -> 1 <= n ->
  window db ticker n <> [].
Proof.
  unfold window, crud.get_stocks, crud.get_stocks_latest_n, crud.limit.
  intros Hne Hn Hw.
  apply (f_equal (@List.length _)) in Hw.
  rewrite length_rev, length_firstn in Hw. cbn [List.length] in Hw.
  pose proof (Permutation_length
                (order_by_timestamp_desc_Permutation
                   (crud.filter_ticker ticker db))) as Hlen.
  rewrite Hlen in Hw.
  destruct (crud.filter_ticker ticker db); [contradiction|].
  cbn [List.length] in Hw. lia.
Qed.

(** X6: with a record stored and a validated [n], [/chart] succeeds with
    media type [image/png]; the renderer is given the title built from the
    upper-cased ticker and two series of equal length, between 1 and [n]
    points, whose timestamps are in non-decreasing order. *)
Theorem chart_series_oldest_first
    (savefig : string -> list Z -> list float -> string)
    (ticker : string) (raw : option Z) (n : Z) (db : Session) :
  crud.get_stocks db ticker <> [] ->
  Query.validate main.chart_ticker_n raw = Ok n ->
  let rows := window db ticker n in
  let times := map Stock.timestamp rows in
  let prices := map Stock.price rows in
  main.GET_chart savefig ticker raw db
    = (Ok (StreamingResponse.mk
             (savefig (Py.upper ticker ++ " - Recent Price Trend")%string
                      times prices)
             "image/png"),
       db) /\
  StronglySorted Z.le times /\
  List.length times = List.length prices /\
  (1 <= List.length times <= Z.to_nat n)%nat.
Proof.
  intros Hne Hv. cbv zeta.
  destruct (window_length db ticker raw n Hv) as [Hn _].
  pose proof (window_nonempty db ticker n Hne ltac:(lia)) as Hw.
  split; [|split; [|split]].
  - unfold main.GET_chart, main.with_query. rewrite Hv.
    unfold main.chart_ticker. fold (window db ticker n).
    destruct (window db ticker n); [contradiction|reflexivity].
  - unfold window. apply sorted_rev_ascending.
    apply firstn_sorted, order_by_timestamp_desc_sorted.
  - now rewrite !length_map.
  - rewrite length_map. split.
    + destruct (window db ticker n); [contradiction|cbn; lia].
    + unfold window, crud.get_stocks_latest_n, crud.limit.
      rewrite length_rev. apply firstn_le_length.
Qed.

Lemma chart_series_oldest_first_witness :
  main.GET_chart (fun title _ _ => title) "aapl" (Some 3) four_quotes
    = (Ok (StreamingResponse.mk "AAPL - Recent Price Trend" "image/png"),
       four_quotes) /\
  StronglySorted Z.le [2; 3; 4].
Proof.
  destruct (chart_series_oldest_first (fun title _ _ => title) "aapl"
              (Some 3) 3 four_quotes) as (H1 & H2 & _);
    [discriminate | reflexivity |].
  split; [exact H1 | exact H2].
Defined.

(** ** Found and not found *)

Lemma window_cons (db : Session) (ticker : string) (n : Z) :
  crud.get_stocks db ticker <> [] -> 1 <= n ->
  exists oldest rest, window db ticker n = oldest :: rest.
Proof.
  intros Hne Hn. pose proof (window_nonempty db ticker n Hne Hn) as Hw.
  destruct (window db ticker n) as [|o rest]; [contradiction|eauto].
Qed.

Lemma window_count (db : Session) (ticker : string) (n : Z) :
  List.length (window db ticker n)
  = Nat.min (Z.to_nat n) (List.length (crud.get_stocks db ticker)).
Proof.
  unfold window, crud.get_stocks, crud.get_stocks_latest_n, crud.limit.
  rewrite length_rev, length_firstn.
  now rewrite (Permutation_length
                 (order_by_timestamp_desc_Permutation
                    (crud.filter_ticker ticker db))).
Qed.

(** X7: with a record stored and a validated [n], [/analysis] succeeds
    and its [count] is the smaller of [n] and the number of rows stored
    for the ticker, hence between 1 and [n]. *)
Theorem analysis_count (ticker : string) (raw : option Z) (n : Z)
    (db : Session) :
  crud.get_stocks db ticker <> [] ->
  Query.validate main.analyze_ticker_n raw = Ok n ->
  exists res,
    main.GET_analysis ticker raw db = (Ok res, db) /\
    AnalysisResult.ticker res = Py.upper ticker /\
    AnalysisResult.count res
      = Z.min n (Z.of_nat (List.length (crud.get_stocks db ticker))) /\
    1 <= AnalysisResult.count res <= n.
Proof.
  intros Hne Hv. destruct (window_length db ticker raw n Hv) as [Hn _].
  destruct (window_cons db ticker n Hne ltac:(lia)) as (oldest & rest & Hw).
  pose proof (window_count db ticker n) as Hc. rewrite Hw in Hc.
  cbn [List.length] in Hc.
  eexists. split; [apply (GET_analysis_window _ _ _ _ _ _ Hv Hw)|].
  cbn [AnalysisResult.ticker AnalysisResult.count].
  split; [reflexivity|]. rewrite Hc. lia.
Qed.

Lemma analysis_count_witness :
  exists res,
    main.GET_analysis "aapl" (Some 3) four_quotes = (Ok res, four_quotes) /\
    AnalysisResult.ticker res = "AAPL" /\
    AnalysisResult.count res = 3 /\
    1 <= AnalysisResult.count res <= 3.
Proof.
  apply (analysis_count "aapl" (Some 3) 3 four_quotes);
    [discriminate | reflexivity].
Defined.



(** ** What a response depends on *)

Lemma handlers_by_stored_rows
    (savefig : string -> list Z -> list float -> string)
    (t1 t2 : string) (db1 db2 : Session) :
  Py.upper t1 = Py.upper t2 ->
  crud.filter_ticker t1 db1 = crud.filter_ticker t2 db2 ->
  fst (main.stock_history t1 db1) = fst (main.stock_history t2 db2) /\
  (forall n, fst (main.analyze_ticker t1 n db1)
             = fst (main.analyze_ticker t2 n db2)) /\
  (forall n, fst (main.chart_ticker savefig t1 n db1)
             = fst (main.chart_ticker savefig t2 n db2)).
Proof.
  intros Hu Hf. split; [|split]; [|intros n|intros n].
  - unfold main.stock_history, crud.get_stocks. rewrite Hf, Hu.
    now destruct (crud.filter_ticker t2 db2).
  - unfold main.analyze_ticker, crud.get_stocks_latest_n. rewrite Hf, Hu.
    now destruct (rev _).
  - unfold main.chart_ticker, crud.get_stocks_latest_n. rewrite Hf, Hu.
    now destruct (rev _).
Qed.

Lemma with_query_fst {A : Type} (q : Query.t) (h1 h2 : Z -> main.handler A)
    (raw : option Z) (db1 db2 : Session) :
  (forall n, fst (h1 n db1) = fst (h2 n db2)) ->
  fst (main.with_query q h1 raw db1) = fst (main.with_query q h2 raw db2).
Proof.
  intros H. unfold main.with_query.
  destruct (Query.validate q raw); [apply H | reflexivity].
Qed.

(** X9: recording a quote of another ticker changes the response of no
    read route of this ticker. *)
Theorem other_tickers_do_not_interfere
    (savefig : string -> list Z -> list float -> string)
    (ticker other : string) (price : float) (utcnow : Z) (raw : option Z)
    (db : Session) :
  Py.upper other <> Py.upper ticker ->
  let db' := snd (crud.add_stock db other price utcnow) in
  fst (main.stock_history ticker db') = fst (main.stock_history ticker db) /\
  fst (main.GET_analysis ticker raw db')
    = fst (main.GET_analysis ticker raw db) /\
  fst (main.GET_chart savefig ticker raw db')
    = fst (main.GET_chart savefig ticker raw db).
Proof.
  intros Hne db'.
  assert (Hf : crud.filter_ticker ticker db' = crud.filter_ticker ticker db).
  { pose proof (get_stocks_add_stock_eq db other ticker price utcnow) as Hg.
    destruct (String.eqb_spec (Py.upper other) (Py.upper ticker));
      [contradiction|].
    rewrite app_nil_r in Hg. exact Hg. }
  destruct (handlers_by_stored_rows savefig ticker ticker db' db eq_refl Hf)
    as (H1 & H2 & H3).
  split; [exact H1|].
  split; apply with_query_fst; assumption.
Qed.

Lemma other_tickers_do_not_interfere_witness :
  let db' := snd (crud.add_stock four_quotes "msft" 7%float 9) in
  fst (main.GET_analysis "aapl" None db')
    = fst (main.GET_analysis "aapl" None four_quotes).
Proof.
  apply (other_tickers_do_not_interfere (fun _ _ _ => "png") "aapl" "msft"
           7%float 9 None four_quotes).
  discriminate.
Defined.

(** X10: two paths that upper-case to the same text get the same response
    and leave the same session, on [/history], [/analysis] and
    [/chart]. *)
Theorem read_routes_case_insensitive
    (savefig : string -> list Z -> list float -> string)
    (t1 t2 : string) (raw : option Z) (db : Session) :
  Py.upper t1 = Py.upper t2 ->
  main.stock_history t1 db = main.stock_history t2 db /\
  main.GET_analysis t1 raw db = main.GET_analysis t2 raw db /\
  main.GET_chart savefig t1 raw db = main.GET_chart savefig t2 raw db.
Proof.
  intros Hu.
  assert (Hf : crud.filter_ticker t1 db = crud.filter_ticker t2 db)
    by (unfold crud.filter_ticker; now rewrite Hu).
  split; [|split].
  - unfold main.stock_history, crud.get_stocks. now rewrite Hf, Hu.
  - unfold main.GET_analysis, main.with_query, main.analyze_ticker,
      crud.get_stocks_latest_n. now rewrite Hf, Hu.
  - unfold main.GET_chart, main.with_query, main.chart_ticker,
      crud.get_stocks_latest_n. now rewrite Hf, Hu.
Qed.

Lemma read_routes_case_insensitive_witness :
  main.stock_history "AaPl" four_quotes = main.stock_history "AAPL" four_quotes /\
  main.GET_analysis "AaPl" None four_quotes
    = main.GET_analysis "AAPL" None four_quotes /\
  main.GET_chart (fun _ _ _ => "png") "AaPl" None four_quotes
    = main.GET_chart (fun _ _ _ => "png") "AAPL" None four_quotes.
Proof.
  exact (read_routes_case_insensitive (fun _ _ _ => "png") "AaPl" "AAPL"
           None four_quotes eq_refl).
Defined.

(** ** Invariants of the table *)

(** X11: if every stored ticker is its own upper-casing, this still holds
    after [add_stock], and every row of the table is found by
    [get_stocks] asked with the ticker the row stores. *)
Theorem add_stock_keeps_normalised (db : Session) (ticker : string)
    (price : float) (utcnow : Z) :
  normalised db ->
  let db' := snd (crud.add_stock db ticker price utcnow) in
  normalised db' /\
  forall r, In r db' -> In r (crud.get_stocks db' (Stock.ticker r)).
Proof.
  intros Hn db'.
  assert (Hn' : normalised db').
  { intros r Hr. apply in_app_or in Hr. destruct Hr as [Hr|[<-|[]]].
    - now apply Hn.
    - cbn [Stock.ticker]. apply upper_idempotent. }
  split; [exact Hn'|].
  intros r Hr. apply filter_ticker_In. split; [exact Hr|].
  symmetry. now apply Hn'.
Qed.

Lemma add_stock_keeps_normalised_witness :
  let db' := snd (crud.add_stock four_quotes "msft" 7%float 9) in
  normalised db' /\
  forall r, In r db' -> In r (crud.get_stocks db' (Stock.ticker r)).
Proof.
  apply (add_stock_keeps_normalised four_quotes "msft" 7%float 9).
  intros r Hr. cbn in Hr.
  destruct Hr as [<-|[<-|[<-|[<-|[]]]]]; reflexivity.
Defined.

(** X12: no route removes or alters a stored row.  The three read routes
    leave the session as it was, whatever they answer; [/stock] leaves it
    extended by at most one row, and by none exactly when the provider
    has no data. *)
Theorem routes_append_only
    (yf_history : string -> list float)
    (savefig : string -> list Z -> list float -> string)
    (utcnow : Z) (ticker : string) (raw : option Z) (db : Session) :
  snd (main.stock_history ticker db) = db /\
  snd (main.GET_analysis ticker raw db) = db /\
  snd (main.GET_chart savefig ticker raw db) = db /\
  exists added,
    snd (main.fetch_stock yf_history utcnow ticker db) = db ++ added /\
    (List.length added <= 1)%nat /\
    (added = [] <-> yf_history ticker = []).
Proof.
  split; [|split; [|split]].
  - unfold main.stock_history. now destruct (crud.get_stocks db ticker).
  - unfold main.GET_analysis, main.with_query.
    destruct (Query.validate _ raw); [|reflexivity].
    unfold main.analyze_ticker. now destruct (rev _).
  - unfold main.GET_chart, main.with_query.
    destruct (Query.validate _ raw); [|reflexivity].
    unfold main.chart_ticker. now destruct (rev _).
  - unfold main.fetch_stock.
    destruct (yf_history ticker) as [|x l] eqn:E.
    + exists []. cbn. rewrite app_nil_r. repeat split; auto.
    + rewrite getitem_last. cbn [crud.add_stock snd].
      eexists. split; [reflexivity|]. split; [cbn; lia|].
      split; discriminate.
Qed.

(** X13: once the window size covers every row stored for the ticker, a
    larger valid window size changes neither the [/analysis] nor the
    [/chart] response. *)
Theorem window_size_beyond_records
    (savefig : string -> list Z -> list float -> string)
    (ticker : string) (v1 v2 : Z) (db : Session) :
  2 <= v1 <= v2 -> v2 <= 1000 ->
  Z.of_nat (List.length (crud.get_stocks db ticker)) <= v1 ->
  main.GET_analysis ticker (Some v1) db = main.GET_analysis ticker (Some v2) db /\
  main.GET_chart savefig ticker (Some v1) db
    = main.GET_chart savefig ticker (Some v2) db.
Proof.
  intros H1 H2 Hlen.
  assert (Hq : forall v, 2 <= v <= 1000 ->
             Query.validate main.analyze_ticker_n (Some v) = Ok v).
  { intros v Hv. unfold Query.validate, main.analyze_ticker_n.
    cbn [Query.ge Query.le].
    replace ((2 <=? v) && (v <=? 1000)) with true; [reflexivity|].
    symmetry. apply andb_true_iff. lia. }
  assert (Hl : forall v, v1 <= v ->
             crud.get_stocks_latest_n db ticker (Z.to_nat v)
             = crud.order_by_timestamp_desc (crud.filter_ticker ticker db)).
  { intros v Hv. unfold crud.get_stocks_latest_n, crud.limit.
    apply firstn_all2.
    rewrite (Permutation_length
               (order_by_timestamp_desc_Permutation
                  (crud.filter_ticker ticker db))).
    unfold crud.get_stocks in Hlen. lia. }
  unfold main.GET_analysis, main.GET_chart, main.with_query.
  change main.chart_ticker_n with main.analyze_ticker_n.
  rewrite !Hq by lia.
  unfold main.analyze_ticker, main.chart_ticker.
  rewrite (Hl v1), (Hl v2) by lia. split; reflexivity.
Qed.

Lemma window_size_beyond_records_witness :
  main.GET_analysis "aapl" (Some 4) four_quotes
    = main.GET_analysis "aapl" (Some 1000) four_quotes /\
  main.GET_chart (fun _ _ _ => "png") "aapl" (Some 4) four_quotes
    = main.GET_chart (fun _ _ _ => "png") "aapl" (Some 1000) four_quotes.
Proof.
  apply (window_size_beyond_records (fun _ _ _ => "png") "aapl" 4 1000
           four_quotes); [lia | lia | vm_compute; discriminate].
Defined.

(** ** No net movement *)

(** X14: when the newest price of the window is the oldest price, and
    that price is finite and differs from 0, [pct_change] compares equal
    to 0, whatever the prices in between. *)
Theorem pct_change_zero_without_movement (ticker : string) (raw : option Z)
    (n : Z) (db : Session) (oldest : Stock.t) (rest : list Stock.t) :
  Query.validate main.analyze_ticker_n raw = Ok n ->
  window db ticker n = oldest :: rest ->
  Stock.price (last rest oldest) = Stock.price oldest ->
  PrimFloat.is_finite (Stock.price oldest) = true ->
  Py.ne (Stock.price oldest) (Py.float_of_int 0) = true ->
  exists res c,
    main.GET_analysis ticker raw db = (Ok res, db) /\
    AnalysisResult.pct_change res = Some c /\
    Py.eq c (Py.float_of_int 0) = true.
Proof.
  intros Hv Hw Hsame Hfin Hnz.
  rewrite float_of_int_0 in *. unfold Py.ne in Hnz.
  eexists. eexists.
  split; [apply (GET_analysis_window _ _ _ _ _ _ Hv Hw)|].
  cbn [AnalysisResult.pct_change]. unfold Py.ne. rewrite Hnz, Hsame.
  split; [reflexivity|].
  apply negb_true_iff in Hnz.
  destruct (pct_same (Stock.price oldest) Hfin Hnz) as [-> | ->];
    reflexivity.
Qed.

Lemma pct_change_zero_without_movement_witness :
  exists res c,
    main.GET_analysis "x" None flat_quotes = (Ok res, flat_quotes) /\
    AnalysisResult.pct_change res = Some c /\
    Py.eq c (Py.float_of_int 0) = true.
Proof.
  exact (pct_change_zero_without_movement "x" None 20 flat_quotes
           (Stock.mk 1 "X" 0x1.90a3d70a3d70ap+0%float 1)
           [Stock.mk 2 "X" 0x1.90a3d70a3d70ap+0%float 2;
            Stock.mk 3 "X" 0x1.90a3d70a3d70ap+0%float 3]
           eq_refl eq_refl eq_refl eq_refl eq_refl).
Defined.

(** ** Growing the window *)

Lemma firstn_plus {A : Type} (k j : nat) (l : list A) :
  firstn (k + j) l = firstn k l ++ firstn j (skipn k l).
Proof.
  revert l. induction k as [|k IH]; intros l; [reflexivity|].
  destruct l as [|x l]; [now rewrite !firstn_nil|].
  cbn. now rewrite IH.
Qed.

(** X15: asking the bounded query for [j] more rows appends at most [j]
    rows to its answer, none of them newer than a row already there. *)
Theorem latest_n_grows_by_older_rows (db : Session) (ticker : string)
    (k j : nat) :
  exists older,
    crud.get_stocks_latest_n db ticker (k + j)
      = crud.get_stocks_latest_n db ticker k ++ older /\
    (List.length older <= j)%nat /\
    forall r o,
      In r (crud.get_stocks_latest_n db ticker k) -> In o older ->
      Stock.timestamp o <= Stock.timestamp r.
Proof.
  unfold crud.get_stocks_latest_n, crud.limit.
  set (sorted := crud.order_by_timestamp_desc (crud.filter_ticker ticker db)).
  exists (firstn j (skipn k sorted)).
  split; [apply firstn_plus|]. split; [apply firstn_le_length|].
  intros r o Hr Ho.
  destruct (firstn_sorted k sorted (order_by_timestamp_desc_sorted _))
    as [_ Hdom].
  apply (Hdom r o Hr).
  rewrite <- (firstn_skipn j (skipn k sorted)). apply in_or_app. now left.
Qed.

(** ** The history list *)

(** X16: a successful [/history] lists the rows stored for the ticker:
    at least one item and no more than the table has rows, every item
    under the upper-cased ticker of the path, and an item for every
    stored row of that ticker with its price and timestamp. *)
Theorem history_lists_the_stored_rows (ticker : string) (db db' : Session)
    (items : list HistoryItem.t) :
  main.stock_history ticker db = (Ok items, db') ->
  items = map history_item (crud.get_stocks db ticker) /\
  Forall (fun i => HistoryItem.ticker i = Py.upper ticker) items /\
  (forall r, In r db -> Stock.ticker r = Py.upper ticker ->
             In (HistoryItem.mk (Py.upper ticker) (Stock.price r)
                                (Stock.timestamp r)) items) /\
  (1 <= List.length items <= List.length db)%nat.
Proof.
  intros H.
  assert (Hne : crud.get_stocks db ticker <> []).
  { intros E. unfold main.stock_history in H. rewrite E in H. discriminate. }
  rewrite (stock_history_ok ticker db Hne) in H. injection H as <- _.
  split; [reflexivity|]. split; [|split].
  - apply Forall_forall. intros i Hi. apply in_map_iff in Hi.
    destruct Hi as (r & <- & Hr). apply filter_ticker_In in Hr. tauto.
  - intros r Hr Ht. rewrite <- Ht.
    change (In (history_item r) (map history_item (crud.get_stocks db ticker))).
    apply in_map, filter_ticker_In. tauto.
  - rewrite length_map. split; [|apply filter_length_le].
    destruct (crud.get_stocks db ticker); [contradiction|cbn; lia].
Qed.

Lemma history_lists_the_stored_rows_witness :
  Forall (fun i => HistoryItem.ticker i = "AAPL")
         (map history_item (crud.get_stocks four_quotes "aapl")) /\
  (1 <= List.length (map history_item (crud.get_stocks four_quotes "aapl"))
     <= 4)%nat.
Proof.
  destruct (history_lists_the_stored_rows "aapl" four_quotes four_quotes
              (map history_item (crud.get_stocks four_quotes "aapl"))
              eq_refl) as (_ & H2 & _ & H4).
  split; [exact H2 | exact H4].
Defined.
